(** * Altitude estimation and altitude hold (src/main/flight/altitude.c)

    A shallow embedding of the altitude estimator and of the altitude-hold
    controller, followed by the properties of the specification that were
    checked against it.

    Conventions:
    - C integers are [Z] values; every arithmetic result that is stored in
      or computed at a fixed width is wrapped explicitly ([int32], [int16],
      [uint32], ...).
    - C [float] is IEEE-754 binary32, computed with the parameterised
      operations of [SpecFloat] at precision 24 and maximal exponent 128.
    - The file-scope and function-static objects of altitude.c, together
      with the objects of other modules that altitude.c writes, form the
      record [state]; everything that is only read is in the record [env].
    - An integer division by zero is a fault: functions that contain one
      return in the type [result]. *)

From Stdlib Require Import ZArith Lia Bool List.
From Stdlib Require Import Floats.SpecFloat.
Import ListNotations.
Local Open Scope Z_scope.

(** ** Fixed-width integers *)

Module CInt.

Definition wrap_unsigned (w z : Z) : Z := z mod 2 ^ w.

Definition wrap_signed (w z : Z) : Z :=
  (z + 2 ^ (w - 1)) mod 2 ^ w - 2 ^ (w - 1).

Definition uint8 : Z -> Z := wrap_unsigned 8.
Definition uint16 : Z -> Z := wrap_unsigned 16.
Definition uint32 : Z -> Z := wrap_unsigned 32.
Definition int16 : Z -> Z := wrap_signed 16.
Definition int32 : Z -> Z := wrap_signed 32.

Definition INT32_MIN : Z := - 2 ^ 31.
Definition INT32_MAX : Z := 2 ^ 31 - 1.

Definition in_int16 (z : Z) : Prop := - 2 ^ 15 <= z <= 2 ^ 15 - 1.
Definition in_int32 (z : Z) : Prop := INT32_MIN <= z <= INT32_MAX.
Definition in_uint32 (z : Z) : Prop := 0 <= z < 2 ^ 32.

(** Saturation, as performed by the float-to-integer conversion. *)
Definition saturate32 (z : Z) : Z :=
  if z <? INT32_MIN then INT32_MIN
  else if INT32_MAX <? z then INT32_MAX
  else z.

End CInt.
Export CInt.

(** ** Single-precision floating point *)

Module F32.

Definition prec : Z := 24.
Definition emax : Z := 128.

Definition float : Type := spec_float.

Definition add : float -> float -> float := SFadd prec emax.
Definition sub : float -> float -> float := SFsub prec emax.
Definition mul : float -> float -> float := SFmul prec emax.
Definition div : float -> float -> float := SFdiv prec emax.

(** Integer to [float] conversion (round to nearest, ties to even). *)
Definition of_Z (z : Z) : float := binary_normalize prec emax z 0 false.

Definition zero : float := S754_zero false.
Definition one : float := of_Z 1.
(** [0.5f] *)
Definition half : float := div (of_Z 1) (of_Z 2).
(** [1e-6f]: the binary32 value nearest to one millionth. *)
Definition micro : float := div (of_Z 1) (of_Z 1000000).
(** [1000000.0f] *)
Definition million : float := of_Z 1000000.

(** The integer part of a finite value, rounded toward zero. *)
Definition trunc_finite (s : bool) (m : positive) (e : Z) : Z :=
  let a := match e with
           | Z0 => Zpos m
           | Zpos _ => Z.shiftl (Zpos m) e
           | Zneg _ => Z.shiftr (Zpos m) (- e)
           end in
  if s then - a else a.

(** The nearest integer of a finite value, ties to even. *)
Definition rint_finite (s : bool) (m : positive) (e : Z) : Z :=
  let a := match e with
           | Z0 => Zpos m
           | Zpos _ => Z.shiftl (Zpos m) e
           | Zneg _ =>
               let q := Z.shiftr (Zpos m) (- e) in
               let r := Zpos m - Z.shiftl q (- e) in
               let h := Z.shiftl 1 (- e - 1) in
               if r <? h then q
               else if h <? r then q + 1
               else if Z.even q then q else q + 1
           end in
  if s then - a else a.

(** [(int32_t) f].  The C standard leaves the conversion of a value that
    does not fit undefined; the model takes what the target's conversion
    instruction does: saturation, and 0 for a NaN. *)
Definition to_int32 (f : float) : Z :=
  match f with
  | S754_zero _ => 0
  | S754_nan => 0
  | S754_infinity s => if s then INT32_MIN else INT32_MAX
  | S754_finite s m e => saturate32 (trunc_finite s m e)
  end.

(** [lrintf(f)] in the default rounding mode, [long] being 32 bits wide;
    out-of-range arguments as for [to_int32]. *)
Definition lrintf (f : float) : Z :=
  match f with
  | S754_zero _ => 0
  | S754_nan => 0
  | S754_infinity s => if s then INT32_MIN else INT32_MAX
  | S754_finite s m e => saturate32 (rint_finite s m e)
  end.

End F32.

(** Arithmetic is never unfolded by simplification. *)
Arguments F32.add : simpl never.
Arguments F32.sub : simpl never.
Arguments F32.mul : simpl never.
Arguments F32.div : simpl never.
Arguments F32.of_Z : simpl never.
Arguments F32.to_int32 : simpl never.
Arguments F32.lrintf : simpl never.
Arguments F32.zero : simpl never.
Arguments F32.one : simpl never.
Arguments F32.half : simpl never.
Arguments F32.micro : simpl never.
Arguments F32.million : simpl never.
Arguments int16 : simpl never.
Arguments int32 : simpl never.
Arguments uint32 : simpl never.

(** ** Helpers of common/maths.h *)

(** Modelled from the spec: the macro [ABS] of common/maths.h, which is not
    part of the sources at hand; the absolute value, computed after the
    integer promotion of its argument. *)
Definition ABS (x : Z) : Z := if 0 <? x then x else - x.

(** Modelled from the spec: [constrain] of common/maths.h ("clamp"); the
    lower bound is tested first. *)
Definition constrain (amt low high : Z) : Z :=
  if amt <? low then low
  else if high <? amt then high
  else amt.

(** Modelled from the spec: [applyDeadband] of common/maths.h; a value
    whose magnitude is below the threshold becomes 0, any other value has
    the threshold subtracted from its magnitude. *)
Definition applyDeadband (value deadband : Z) : Z :=
  if ABS value <? deadband then 0
  else if 0 <? value then int32 (value - deadband)
  else if value <? 0 then int32 (value + deadband)
  else value.

(** Modelled from the spec: the macro [GET_DIRECTION] ("sign-flipped if a
    configured reversal flag is set"). *)
Definition GET_DIRECTION (isReversed : bool) : Z :=
  if isReversed then -1 else 1.

(** ** Results of fallible code *)

Inductive result (A : Type) : Type :=
| Ok (a : A)
| DivisionByZero.
Arguments Ok {A} a.
Arguments DivisionByZero {A}.

Definition bind {A B : Type} (r : result A) (k : A -> result B) : result B :=
  match r with
  | Ok a => k a
  | DivisionByZero => DivisionByZero
  end.

Notation "x <- c ;; k" := (bind c (fun x => k))
  (at level 61, c at next level, right associativity).

(** Integer division of C: truncation toward zero, a fault on a zero
    divisor. *)
Definition idiv (a b : Z) : result Z :=
  if b =? 0 then DivisionByZero else Ok (int32 (Z.quot a b)).

(** ** Collaborators *)

Inductive rc_channel : Type := ROLL | PITCH | YAW | THROTTLE.

Definition rc_channel_eqb (a b : rc_channel) : bool :=
  match a, b with
  | ROLL, ROLL | PITCH, PITCH | YAW, YAW | THROTTLE, THROTTLE => true
  | _, _ => false
  end.

(** An array indexed by the four stick channels. *)
Definition rc_array : Type := rc_channel -> Z.

Definition rc_store (a : rc_array) (c : rc_channel) (v : Z) : rc_array :=
  fun c' => if rc_channel_eqb c c' then v else a c'.

(** The three debug slots written by the estimator. *)
Inductive debug_slot : Type :=
| DEBUG_ALTITUDE_ACC
| DEBUG_ALTITUDE_VEL
| DEBUG_ALTITUDE_HEIGHT.

Definition debug_slot_eqb (a b : debug_slot) : bool :=
  match a, b with
  | DEBUG_ALTITUDE_ACC, DEBUG_ALTITUDE_ACC
  | DEBUG_ALTITUDE_VEL, DEBUG_ALTITUDE_VEL
  | DEBUG_ALTITUDE_HEIGHT, DEBUG_ALTITUDE_HEIGHT => true
  | _, _ => false
  end.

Record attitudeEulerAngles_t : Type := mkAttitude {
  roll : Z;   (* int16_t, decidegrees *)
  pitch : Z;  (* int16_t, decidegrees *)
  yaw : Z
}.

(** The gains read by the controller: [P8[PIDALT]], [P8[PIDVEL]],
    [I8[PIDVEL]] and [D8[PIDVEL]], all [uint8_t]. *)
Record pidProfile_t : Type := mkPidProfile {
  P8_PIDALT : Z;
  P8_PIDVEL : Z;
  I8_PIDVEL : Z;
  D8_PIDVEL : Z
}.

(** The barometer driver (sensors/barometer.c) is a collaborator with a
    state of its own; altitude.c uses these three entry points. *)
Class BaroDriver (B : Type) : Type := {
  isBaroCalibrationComplete : B -> bool;
  performBaroCalibrationCycle : B -> B;
  baroCalculateAltitude : B -> Z * B
}.

(** Everything altitude.c only reads during one call: stick data, the
    attitude, sensor presence, the ranging driver's reading and limits,
    configuration, and the constants of headers that are not part of the
    sources at hand ([PWM_RANGE_MIN], [PWM_RANGE_MAX], the two flight-mode
    masks), which are taken as parameters. *)
Record env : Type := mkEnv {
  rcData : rc_array;                       (* int16_t rcData[] *)
  attitude : attitudeEulerAngles_t;
  sensors_BARO : bool;                     (* sensors(SENSOR_BARO) *)
  sensors_SONAR : bool;                    (* sensors(SENSOR_SONAR) *)
  sensors_ACC : bool;                      (* sensors(SENSOR_ACC) *)
  (* value of sonarCalculateAltitude(sonarRead(), getCosTiltAngle()) *)
  sonarAltitude : Z;
  sonarCfAltCm : Z;                        (* int16_t *)
  sonarMaxAltWithTiltCm : Z;               (* int16_t *)
  accVelScale : F32.float;
  debugMode_ALTITUDE : bool;               (* debugMode == DEBUG_ALTITUDE *)
  STATE_FIXED_WING : bool;                 (* STATE(FIXED_WING) *)
  rcMode_BOXBARO : bool;                   (* IS_RC_MODE_ACTIVE(BOXBARO) *)
  rcMode_BOXSONAR : bool;                  (* IS_RC_MODE_ACTIVE(BOXSONAR) *)
  pidProfile : pidProfile_t;
  alt_hold_deadband : Z;                   (* uint8_t *)
  alt_hold_fast_change : Z;                (* uint8_t *)
  fixedwing_althold_reversed : bool;
  baro_cf_alt : F32.float;
  baro_cf_vel : F32.float;
  PWM_RANGE_MIN : Z;
  PWM_RANGE_MAX : Z;
  BARO_MODE : Z;
  SONAR_MODE : Z
}.

(** ** The state *)

Section Altitude.

Context {B : Type} {baroDriver : BaroDriver B}.

(** The objects of altitude.c (file scope first, then the statics of its
    functions), followed by the objects of other modules that altitude.c
    writes. *)
Record state : Type := mkState {
  setVelocity : Z;                        (* int32_t *)
  velocityControl : Z;                    (* uint8_t *)
  errorVelocityI : Z;                     (* int32_t *)
  altHoldThrottleAdjustment : Z;          (* int32_t *)
  AltHold : Z;                            (* int32_t *)
  estimatedVario : Z;                     (* int32_t, cm/s *)
  estimatedAltitude : Z;                  (* int32_t, cm *)
  initialThrottleHold : Z;                (* int16_t *)
  isAltHoldChanged : Z;                   (* static uint8_t of applyMultirotorAltHold *)
  previousTimeUs : Z;                     (* static timeUs_t of calculateEstimatedAltitude *)
  vel : F32.float;                        (* static float *)
  accAlt : F32.float;                     (* static float *)
  lastBaroAlt : Z;                        (* static int32_t *)
  accZ_old : F32.float;                   (* static float *)
  rcCommand : rc_array;                   (* fc/rc_controls: command words *)
  flightModeFlags : Z;                    (* fc/runtime_config *)
  accSum : list Z;                        (* flight/imu: int32_t accSum[3] *)
  accSumCount : Z;                        (* flight/imu: int *)
  accTimeSum : Z;                         (* flight/imu: uint32_t *)
  debug : debug_slot -> Z;                (* build/debug: int16_t slots *)
  baro : B                                (* sensors/barometer: driver state *)
}.

(** Assignments to single objects. *)

Definition set_setVelocity (st : state) (v : Z) : state :=
  mkState v (velocityControl st) (errorVelocityI st)
    (altHoldThrottleAdjustment st) (AltHold st) (estimatedVario st)
    (estimatedAltitude st) (initialThrottleHold st) (isAltHoldChanged st)
    (previousTimeUs st) (vel st) (accAlt st) (lastBaroAlt st) (accZ_old st)
    (rcCommand st) (flightModeFlags st) (accSum st) (accSumCount st)
    (accTimeSum st) (debug st) (baro st).

Definition set_velocityControl (st : state) (v : Z) : state :=
  mkState (setVelocity st) v (errorVelocityI st)
    (altHoldThrottleAdjustment st) (AltHold st) (estimatedVario st)
    (estimatedAltitude st) (initialThrottleHold st) (isAltHoldChanged st)
    (previousTimeUs st) (vel st) (accAlt st) (lastBaroAlt st) (accZ_old st)
    (rcCommand st) (flightModeFlags st) (accSum st) (accSumCount st)
    (accTimeSum st) (debug st) (baro st).

Definition set_errorVelocityI (st : state) (v : Z) : state :=
  mkState (setVelocity st) (velocityControl st) v
    (altHoldThrottleAdjustment st) (AltHold st) (estimatedVario st)
    (estimatedAltitude st) (initialThrottleHold st) (isAltHoldChanged st)
    (previousTimeUs st) (vel st) (accAlt st) (lastBaroAlt st) (accZ_old st)
    (rcCommand st) (flightModeFlags st) (accSum st) (accSumCount st)
    (accTimeSum st) (debug st) (baro st).

Definition set_altHoldThrottleAdjustment (st : state) (v : Z) : state :=
  mkState (setVelocity st) (velocityControl st) (errorVelocityI st) v
    (AltHold st) (estimatedVario st) (estimatedAltitude st)
    (initialThrottleHold st) (isAltHoldChanged st) (previousTimeUs st)
    (vel st) (accAlt st) (lastBaroAlt st) (accZ_old st) (rcCommand st)
    (flightModeFlags st) (accSum st) (accSumCount st) (accTimeSum st)
    (debug st) (baro st).

Definition set_AltHold (st : state) (v : Z) : state :=
  mkState (setVelocity st) (velocityControl st) (errorVelocityI st)
    (altHoldThrottleAdjustment st) v (estimatedVario st)
    (estimatedAltitude st) (initialThrottleHold st) (isAltHoldChanged st)
    (previousTimeUs st) (vel st) (accAlt st) (lastBaroAlt st) (accZ_old st)
    (rcCommand st) (flightModeFlags st) (accSum st) (accSumCount st)
    (accTimeSum st) (debug st) (baro st).

Definition set_estimatedVario (st : state) (v : Z) : state :=
  mkState (setVelocity st) (velocityControl st) (errorVelocityI st)
    (altHoldThrottleAdjustment st) (AltHold st) v (estimatedAltitude st)
    (initialThrottleHold st) (isAltHoldChanged st) (previousTimeUs st)
    (vel st) (accAlt st) (lastBaroAlt st) (accZ_old st) (rcCommand st)
    (flightModeFlags st) (accSum st) (accSumCount st) (accTimeSum st)
    (debug st) (baro st).

Definition set_estimatedAltitude (st : state) (v : Z) : state :=
  mkState (setVelocity st) (velocityControl st) (errorVelocityI st)
    (altHoldThrottleAdjustment st) (AltHold st) (estimatedVario st) v
    (initialThrottleHold st) (isAltHoldChanged st) (previousTimeUs st)
    (vel st) (accAlt st) (lastBaroAlt st) (accZ_old st) (rcCommand st)
    (flightModeFlags st) (accSum st) (accSumCount st) (accTimeSum st)
    (debug st) (baro st).

Definition set_initialThrottleHold (st : state) (v : Z) : state :=
  mkState (setVelocity st) (velocityControl st) (errorVelocityI st)
    (altHoldThrottleAdjustment st) (AltHold st) (estimatedVario st)
    (estimatedAltitude st) v (isAltHoldChanged st) (previousTimeUs st)
    (vel st) (accAlt st) (lastBaroAlt st) (accZ_old st) (rcCommand st)
    (flightModeFlags st) (accSum st) (accSumCount st) (accTimeSum st)
    (debug st) (baro st).

Definition set_isAltHoldChanged (st : state) (v : Z) : state :=
  mkState (setVelocity st) (velocityControl st) (errorVelocityI st)
    (altHoldThrottleAdjustment st) (AltHold st) (estimatedVario st)
    (estimatedAltitude st) (initialThrottleHold st) v (previousTimeUs st)
    (vel st) (accAlt st) (lastBaroAlt st) (accZ_old st) (rcCommand st)
    (flightModeFlags st) (accSum st) (accSumCount st) (accTimeSum st)
    (debug st) (baro st).

Definition set_previousTimeUs (st : state) (v : Z) : state :=
  mkState (setVelocity st) (velocityControl st) (errorVelocityI st)
    (altHoldThrottleAdjustment st) (AltHold st) (estimatedVario st)
    (estimatedAltitude st) (initialThrottleHold st) (isAltHoldChanged st) v
    (vel st) (accAlt st) (lastBaroAlt st) (accZ_old st) (rcCommand st)
    (flightModeFlags st) (accSum st) (accSumCount st) (accTimeSum st)
    (debug st) (baro st).

Definition set_vel (st : state) (v : F32.float) : state :=
  mkState (setVelocity st) (velocityControl st) (errorVelocityI st)
    (altHoldThrottleAdjustment st) (AltHold st) (estimatedVario st)
    (estimatedAltitude st) (initialThrottleHold st) (isAltHoldChanged st)
    (previousTimeUs st) v (accAlt st) (lastBaroAlt st) (accZ_old st)
    (rcCommand st) (flightModeFlags st) (accSum st) (accSumCount st)
    (accTimeSum st) (debug st) (baro st).

Definition set_accAlt (st : state) (v : F32.float) : state :=
  mkState (setVelocity st) (velocityControl st) (errorVelocityI st)
    (altHoldThrottleAdjustment st) (AltHold st) (estimatedVario st)
    (estimatedAltitude st) (initialThrottleHold st) (isAltHoldChanged st)
    (previousTimeUs st) (vel st) v (lastBaroAlt st) (accZ_old st)
    (rcCommand st) (flightModeFlags st) (accSum st) (accSumCount st)
    (accTimeSum st) (debug st) (baro st).

Definition set_lastBaroAlt (st : state) (v : Z) : state :=
  mkState (setVelocity st) (velocityControl st) (errorVelocityI st)
    (altHoldThrottleAdjustment st) (AltHold st) (estimatedVario st)
    (estimatedAltitude st) (initialThrottleHold st) (isAltHoldChanged st)
    (previousTimeUs st) (vel st) (accAlt st) v (accZ_old st) (rcCommand st)
    (flightModeFlags st) (accSum st) (accSumCount st) (accTimeSum st)
    (debug st) (baro st).

Definition set_accZ_old (st : state) (v : F32.float) : state :=
  mkState (setVelocity st) (velocityControl st) (errorVelocityI st)
    (altHoldThrottleAdjustment st) (AltHold st) (estimatedVario st)
    (estimatedAltitude st) (initialThrottleHold st) (isAltHoldChanged st)
    (previousTimeUs st) (vel st) (accAlt st) (lastBaroAlt st) v
    (rcCommand st) (flightModeFlags st) (accSum st) (accSumCount st)
    (accTimeSum st) (debug st) (baro st).

Definition set_rcCommand (st : state) (v : rc_array) : state :=
  mkState (setVelocity st) (velocityControl st) (errorVelocityI st)
    (altHoldThrottleAdjustment st) (AltHold st) (estimatedVario st)
    (estimatedAltitude st) (initialThrottleHold st) (isAltHoldChanged st)
    (previousTimeUs st) (vel st) (accAlt st) (lastBaroAlt st) (accZ_old st)
    v (flightModeFlags st) (accSum st) (accSumCount st) (accTimeSum st)
    (debug st) (baro st).

Definition set_flightModeFlags (st : state) (v : Z) : state :=
  mkState (setVelocity st) (velocityControl st) (errorVelocityI st)
    (altHoldThrottleAdjustment st) (AltHold st) (estimatedVario st)
    (estimatedAltitude st) (initialThrottleHold st) (isAltHoldChanged st)
    (previousTimeUs st) (vel st) (accAlt st) (lastBaroAlt st) (accZ_old st)
    (rcCommand st) v (accSum st) (accSumCount st) (accTimeSum st)
    (debug st) (baro st).

Definition set_accSum (st : state) (v : list Z) : state :=
  mkState (setVelocity st) (velocityControl st) (errorVelocityI st)
    (altHoldThrottleAdjustment st) (AltHold st) (estimatedVario st)
    (estimatedAltitude st) (initialThrottleHold st) (isAltHoldChanged st)
    (previousTimeUs st) (vel st) (accAlt st) (lastBaroAlt st) (accZ_old st)
    (rcCommand st) (flightModeFlags st) v (accSumCount st) (accTimeSum st)
    (debug st) (baro st).

Definition set_accSumCount (st : state) (v : Z) : state :=
  mkState (setVelocity st) (velocityControl st) (errorVelocityI st)
    (altHoldThrottleAdjustment st) (AltHold st) (estimatedVario st)
    (estimatedAltitude st) (initialThrottleHold st) (isAltHoldChanged st)
    (previousTimeUs st) (vel st) (accAlt st) (lastBaroAlt st) (accZ_old st)
    (rcCommand st) (flightModeFlags st) (accSum st) v (accTimeSum st)
    (debug st) (baro st).

Definition set_accTimeSum (st : state) (v : Z) : state :=
  mkState (setVelocity st) (velocityControl st) (errorVelocityI st)
    (altHoldThrottleAdjustment st) (AltHold st) (estimatedVario st)
    (estimatedAltitude st) (initialThrottleHold st) (isAltHoldChanged st)
    (previousTimeUs st) (vel st) (accAlt st) (lastBaroAlt st) (accZ_old st)
    (rcCommand st) (flightModeFlags st) (accSum st) (accSumCount st) v
    (debug st) (baro st).

Definition set_debug (st : state) (v : debug_slot -> Z) : state :=
  mkState (setVelocity st) (velocityControl st) (errorVelocityI st)
    (altHoldThrottleAdjustment st) (AltHold st) (estimatedVario st)
    (estimatedAltitude st) (initialThrottleHold st) (isAltHoldChanged st)
    (previousTimeUs st) (vel st) (accAlt st) (lastBaroAlt st) (accZ_old st)
    (rcCommand st) (flightModeFlags st) (accSum st) (accSumCount st)
    (accTimeSum st) v (baro st).

Definition set_baro (st : state) (v : B) : state :=
  mkState (setVelocity st) (velocityControl st) (errorVelocityI st)
    (altHoldThrottleAdjustment st) (AltHold st) (estimatedVario st)
    (estimatedAltitude st) (initialThrottleHold st) (isAltHoldChanged st)
    (previousTimeUs st) (vel st) (accAlt st) (lastBaroAlt st) (accZ_old st)
    (rcCommand st) (flightModeFlags st) (accSum st) (accSumCount st)
    (accTimeSum st) (debug st) v.

(** ** Flight-mode flags (fc/runtime_config.h) *)

(** Modelled from the spec: the macros [FLIGHT_MODE], [ENABLE_FLIGHT_MODE]
    and [DISABLE_FLIGHT_MODE], which test, set and clear the bits of a mask
    in [flightModeFlags]. *)
Definition FLIGHT_MODE (st : state) (mask : Z) : bool :=
  negb (Z.land (flightModeFlags st) mask =? 0).

Definition ENABLE_FLIGHT_MODE (st : state) (mask : Z) : state :=
  set_flightModeFlags st (Z.lor (flightModeFlags st) mask).

Definition DISABLE_FLIGHT_MODE (st : state) (mask : Z) : state :=
  set_flightModeFlags st (Z.land (flightModeFlags st) (Z.lnot mask)).

(** Modelled from the spec: [imuResetAccelerationSum] of flight/imu.c
    ("reset the accumulation window (sample sum/count) after use"). *)
Definition imuResetAccelerationSum (st : state) : state :=
  set_accTimeSum (set_accSumCount (set_accSum st [0; 0; 0]) 0) 0.

(** Modelled from the spec: the macro [DEBUG_SET] of build/debug.h, behind
    the "debug/telemetry taps ... (three named numeric slots)"; a macro,
    so the value is evaluated, and stored, only when the selected debug
    mode is the one named by the tap.  The slots are [int16_t]. *)
Definition DEBUG_SET (e : env) (st : state) (slot : debug_slot)
    (value : result Z) : result state :=
  if debugMode_ALTITUDE e then
    v <- value ;;
    Ok (set_debug st (fun s => if debug_slot_eqb slot s then int16 v
                               else debug st s))
  else Ok st.

(** ** The controller *)

Definition BARO_UPDATE_FREQUENCY_40HZ : Z := 1000 * 25.

Definition DEGREES_80_IN_DECIDEGREES : Z := 800.

(** [applyMultirotorAltHold], lines 85-116. *)
Definition applyMultirotorAltHold (e : env) (st : state) : state :=
  if negb (alt_hold_fast_change e =? 0) then
    (* rapid alt changes *)
    if alt_hold_deadband e
       <? ABS (int32 (rcData e THROTTLE - initialThrottleHold st)) then
      let st := set_errorVelocityI st 0 in
      let st := set_isAltHoldChanged st 1 in
      set_rcCommand st
        (rc_store (rcCommand st) THROTTLE
           (int16 (rcCommand st THROTTLE
                   + (if initialThrottleHold st <? rcData e THROTTLE
                      then - alt_hold_deadband e
                      else alt_hold_deadband e))))
    else
      let st := if negb (isAltHoldChanged st =? 0)
                then set_isAltHoldChanged
                       (set_AltHold st (estimatedAltitude st)) 0
                else st in
      set_rcCommand st
        (rc_store (rcCommand st) THROTTLE
           (int16 (constrain
                     (int32 (initialThrottleHold st
                             + altHoldThrottleAdjustment st))
                     (PWM_RANGE_MIN e) (PWM_RANGE_MAX e))))
  else
    (* slow alt changes *)
    let st :=
      if alt_hold_deadband e
         <? ABS (int32 (rcData e THROTTLE - initialThrottleHold st)) then
        let st := set_setVelocity st
                    (Z.quot (int32 (rcData e THROTTLE
                                    - initialThrottleHold st)) 2) in
        let st := set_velocityControl st 1 in
        set_isAltHoldChanged st 1
      else if negb (isAltHoldChanged st =? 0) then
        let st := set_AltHold st (estimatedAltitude st) in
        let st := set_velocityControl st 0 in
        set_isAltHoldChanged st 0
      else st in
    set_rcCommand st
      (rc_store (rcCommand st) THROTTLE
         (int16 (constrain
                   (int32 (initialThrottleHold st
                           + altHoldThrottleAdjustment st))
                   (PWM_RANGE_MIN e) (PWM_RANGE_MAX e)))).

(** [applyFixedWingAltHold], lines 118-125. *)
Definition applyFixedWingAltHold (e : env) (st : state) : state :=
  set_rcCommand st
    (rc_store (rcCommand st) PITCH
       (int16 (rcCommand st PITCH
               + int32 (altHoldThrottleAdjustment st
                        * GET_DIRECTION (fixedwing_althold_reversed e))))).

(** [applyAltHold], lines 127-134. *)
Definition applyAltHold (e : env) (st : state) : state :=
  if STATE_FIXED_WING e then applyFixedWingAltHold e st
  else applyMultirotorAltHold e st.

(** [updateAltHoldState], lines 136-151. *)
Definition updateAltHoldState (e : env) (st : state) : state :=
  if negb (rcMode_BOXBARO e) then DISABLE_FLIGHT_MODE st (BARO_MODE e)
  else if negb (FLIGHT_MODE st (BARO_MODE e)) then
    let st := ENABLE_FLIGHT_MODE st (BARO_MODE e) in
    let st := set_AltHold st (estimatedAltitude st) in
    let st := set_initialThrottleHold st (rcData e THROTTLE) in
    let st := set_errorVelocityI st 0 in
    set_altHoldThrottleAdjustment st 0
  else st.

(** [updateSonarAltHoldState], lines 153-168. *)
Definition updateSonarAltHoldState (e : env) (st : state) : state :=
  if negb (rcMode_BOXSONAR e) then DISABLE_FLIGHT_MODE st (SONAR_MODE e)
  else if negb (FLIGHT_MODE st (SONAR_MODE e)) then
    let st := ENABLE_FLIGHT_MODE st (SONAR_MODE e) in
    let st := set_AltHold st (estimatedAltitude st) in
    let st := set_initialThrottleHold st (rcData e THROTTLE) in
    let st := set_errorVelocityI st 0 in
    set_altHoldThrottleAdjustment st 0
  else st.

(** [isThrustFacingDownwards], lines 170-173. *)
Definition isThrustFacingDownwards (a : attitudeEulerAngles_t) : bool :=
  (ABS (roll a) <? DEGREES_80_IN_DECIDEGREES)
  && (ABS (pitch a) <? DEGREES_80_IN_DECIDEGREES).

(** The altitude P-controller of [calculateAltHoldThrottleAdjustment],
    lines 185-193: the value of the local [setVel]. *)
Definition altitudeSetVel (e : env) (st : state) : Z :=
  if velocityControl st =? 0 then
    let error :=
      constrain (int32 (AltHold st - estimatedAltitude st)) (-500) 500 in
    let error := applyDeadband error 10 in
    constrain (Z.quot (int32 (P8_PIDALT (pidProfile e) * error)) 128)
      (-300) 300
  else setVelocity st.

(** The three terms of the velocity PID, lines 196-206.  The I term is the
    new value of [errorVelocityI]; the D term is computed in [float] and
    converted when it is passed to [constrain]. *)
Definition velocityP (e : env) (error : Z) : Z :=
  constrain (Z.quot (int32 (P8_PIDVEL (pidProfile e) * error)) 32)
    (-300) 300.

Definition velocityI (e : env) (st : state) (error : Z) : Z :=
  constrain
    (int32 (errorVelocityI st + int32 (I8_PIDVEL (pidProfile e) * error)))
    (- (8192 * 200)) (8192 * 200).

Definition velocityD (e : env) (accZ_tmp accZ_old : F32.float) : Z :=
  constrain
    (F32.to_int32
       (F32.div
          (F32.mul (F32.of_Z (D8_PIDVEL (pidProfile e)))
             (F32.add accZ_tmp accZ_old))
          (F32.of_Z 512)))
    (-150) 150.

(** [calculateAltHoldThrottleAdjustment], lines 175-209: the returned
    value and the state it leaves. *)
Definition calculateAltHoldThrottleAdjustment (e : env) (st : state)
    (vel_tmp : Z) (accZ_tmp accZ_old : F32.float) : Z * state :=
  let result := 0 in
  if negb (isThrustFacingDownwards (attitude e)) then (result, st)
  else
    let setVel := altitudeSetVel e st in
    (* P *)
    let error := int32 (setVel - vel_tmp) in
    let result := velocityP e error in
    (* I *)
    let st := set_errorVelocityI st (velocityI e st error) in
    let result := int32 (result + Z.quot (errorVelocityI st) 8192) in
    (* D *)
    let result := int32 (result - velocityD e accZ_tmp accZ_old) in
    (result, st).

(** ** The estimator *)

(** Lines 223-235: the barometer block; the value of the local [baroAlt]
    and the state. *)
Definition baroStage (e : env) (st : state) : Z * state :=
  let baroAlt := 0 in
  if sensors_BARO e then
    if negb (isBaroCalibrationComplete (baro st)) then
      let st := set_baro st (performBaroCalibrationCycle (baro st)) in
      let st := set_vel st F32.zero in
      let st := set_accAlt st F32.zero in
      (baroAlt, st)
    else
      let '(baroAlt, b) := baroCalculateAltitude (baro st) in
      let st := set_baro st b in
      let st := set_estimatedAltitude st baroAlt in
      (baroAlt, st)
  else (baroAlt, st).

(** Line 242: the transition factor of the ranging blend. *)
Definition sonarTransition (e : env) (sonarAlt : Z) : F32.float :=
  F32.div
    (F32.of_Z (int32 (sonarMaxAltWithTiltCm e - sonarAlt)))
    (F32.of_Z (int32 (sonarMaxAltWithTiltCm e - sonarCfAltCm e))).

(** Line 243: the blend, converted back to [int32_t]. *)
Definition sonarBlend (sonarAlt baroAlt : Z) (t : F32.float) : Z :=
  F32.to_int32
    (F32.add (F32.mul (F32.of_Z sonarAlt) t)
       (F32.mul (F32.of_Z baroAlt) (F32.sub F32.one t))).

(** Line 240: the test that the reading is usable. *)
Definition sonarInRange (e : env) (sonarAlt : Z) : bool :=
  (0 <? sonarAlt) && (sonarCfAltCm e <=? sonarAlt)
  && (sonarAlt <=? sonarMaxAltWithTiltCm e).

(** Lines 237-247: the ranging block. *)
Definition sonarStage (e : env) (baroAlt : Z) (st : state) : state :=
  if sensors_SONAR e then
    let sonarAlt := sonarAltitude e in
    if sonarInRange e sonarAlt then
      (* SONAR in range, so use complementary filter *)
      let sonarAlt :=
        sonarBlend sonarAlt baroAlt (sonarTransition e sonarAlt) in
      set_estimatedAltitude st sonarAlt
    else st
  else st.

(** Lines 255-257: the mean vertical acceleration of the window. *)
Definition meanAccZ (st : state) : F32.float :=
  if negb (accSumCount st =? 0) then
    F32.div (F32.of_Z (nth 2 (accSum st) 0)) (F32.of_Z (accSumCount st))
  else F32.zero.

(** Lines 249-266: the accelerometer block; the value of the local
    [accZ_tmp] and the state. *)
Definition accStage (e : env) (baroAlt : Z) (st : state)
    : F32.float * state :=
  let accZ_tmp := F32.zero in
  if sensors_ACC e then
    let dt := F32.mul (F32.of_Z (accTimeSum st)) F32.micro in
    (* Integrator - velocity, cm/sec *)
    let accZ_tmp := meanAccZ st in
    let vel_acc :=
      F32.mul (F32.mul accZ_tmp (accVelScale e))
        (F32.of_Z (accTimeSum st)) in
    (* Integrator - Altitude in cm *)
    let st := set_accAlt st
                (F32.add (accAlt st)
                   (F32.add (F32.mul (F32.mul vel_acc F32.half) dt)
                      (F32.mul (vel st) dt))) in
    let st := set_accAlt st
                (F32.add (F32.mul (accAlt st) (baro_cf_alt e))
                   (F32.mul (F32.of_Z baroAlt)
                      (F32.sub F32.one (baro_cf_alt e)))) in
    let st := set_vel st (F32.add (vel st) vel_acc) in
    let st := set_estimatedAltitude st (F32.to_int32 (accAlt st)) in
    (accZ_tmp, st)
  else (accZ_tmp, st).

(** Lines 268-270: the three debug taps.  The first one divides the
    accumulated vertical acceleration by the sample count. *)
Definition debugTaps (e : env) (st : state) : result state :=
  st <- DEBUG_SET e st DEBUG_ALTITUDE_ACC
          (idiv (nth 2 (accSum st) 0) (accSumCount st)) ;;
  st <- DEBUG_SET e st DEBUG_ALTITUDE_VEL (Ok (F32.to_int32 (vel st))) ;;
  DEBUG_SET e st DEBUG_ALTITUDE_HEIGHT (Ok (F32.to_int32 (accAlt st))).

(** Lines 281-286: the barometric velocity. *)
Definition baroVelocity (st : state) (baroAlt dTime : Z) : Z :=
  let baroVel :=
    F32.to_int32
      (F32.div
         (F32.mul (F32.of_Z (int32 (baroAlt - lastBaroAlt st)))
            F32.million)
         (F32.of_Z dTime)) in
  let baroVel := constrain baroVel (-1500) 1500 in
  applyDeadband baroVel 10.

(** Lines 290-300: the velocity filter, the vario and the controller. *)
Definition velocityStage (e : env) (st : state) (baroVel : Z)
    (accZ_tmp : F32.float) : state :=
  let st := set_vel st
              (F32.add (F32.mul (vel st) (baro_cf_vel e))
                 (F32.mul (F32.of_Z baroVel)
                    (F32.sub F32.one (baro_cf_vel e)))) in
  let vel_tmp := F32.lrintf (vel st) in
  (* set vario *)
  let st := set_estimatedVario st (applyDeadband vel_tmp 5) in
  let '(adj, st) :=
    calculateAltHoldThrottleAdjustment e st vel_tmp accZ_tmp
      (accZ_old st) in
  let st := set_altHoldThrottleAdjustment st adj in
  set_accZ_old st accZ_tmp.

(** [calculateEstimatedAltitude], lines 211-301. *)
Definition calculateEstimatedAltitude (e : env) (st : state)
    (currentTimeUs : Z) : result state :=
  let dTime := uint32 (currentTimeUs - previousTimeUs st) in
  if dTime <? BARO_UPDATE_FREQUENCY_40HZ then Ok st
  else
    let st := set_previousTimeUs st currentTimeUs in
    let '(baroAlt, st) := baroStage e st in
    let st := sonarStage e baroAlt st in
    let '(accZ_tmp, st) := accStage e baroAlt st in
    st <- debugTaps e st ;;
    let st := imuResetAccelerationSum st in
    let baroVel := 0 in
    if sensors_BARO e then
      if negb (isBaroCalibrationComplete (baro st)) then Ok st
      else
        let baroVel := baroVelocity st baroAlt dTime in
        let st := set_lastBaroAlt st baroAlt in
        Ok (velocityStage e st baroVel accZ_tmp)
    else Ok (velocityStage e st baroVel accZ_tmp).

(** [getEstimatedAltitude] and [getEstimatedVario], lines 304-312. *)
Definition getEstimatedAltitude (st : state) : Z := estimatedAltitude st.

Definition getEstimatedVario (st : state) : Z := estimatedVario st.

(** ** Runs of the core *)

(** The entry points, with the arguments the scheduler passes. *)
Inductive operation : Type :=
| OpApplyAltHold
| OpUpdateAltHoldState
| OpUpdateSonarAltHoldState
| OpCalculateEstimatedAltitude (currentTimeUs : Z).

Definition exec (e : env) (o : operation) (st : state) : result state :=
  match o with
  | OpApplyAltHold => Ok (applyAltHold e st)
  | OpUpdateAltHoldState => Ok (updateAltHoldState e st)
  | OpUpdateSonarAltHoldState => Ok (updateSonarAltHoldState e st)
  | OpCalculateEstimatedAltitude t => calculateEstimatedAltitude e st t
  end.

(** The objects of altitude.c at program start: their initialisers, zero
    where there is none.  The objects of the collaborators are free. *)
Definition initial (st : state) : Prop :=
  setVelocity st = 0 /\ velocityControl st = 0 /\ errorVelocityI st = 0
  /\ altHoldThrottleAdjustment st = 0 /\ AltHold st = 0
  /\ estimatedVario st = 0 /\ estimatedAltitude st = 0
  /\ initialThrottleHold st = 0 /\ isAltHoldChanged st = 0
  /\ previousTimeUs st = 0 /\ vel st = F32.zero /\ accAlt st = F32.zero
  /\ lastBaroAlt st = 0 /\ accZ_old st = F32.zero.

(** Between two calls the collaborators may rewrite their own objects
    (commands, flags, accumulators, debug slots, the driver state); the
    objects of altitude.c keep their values. *)
Definition same_core (st st' : state) : Prop :=
  setVelocity st' = setVelocity st
  /\ velocityControl st' = velocityControl st
  /\ errorVelocityI st' = errorVelocityI st
  /\ altHoldThrottleAdjustment st' = altHoldThrottleAdjustment st
  /\ AltHold st' = AltHold st
  /\ estimatedVario st' = estimatedVario st
  /\ estimatedAltitude st' = estimatedAltitude st
  /\ initialThrottleHold st' = initialThrottleHold st
  /\ isAltHoldChanged st' = isAltHoldChanged st
  /\ previousTimeUs st' = previousTimeUs st
  /\ vel st' = vel st /\ accAlt st' = accAlt st
  /\ lastBaroAlt st' = lastBaroAlt st /\ accZ_old st' = accZ_old st.

Inductive reachable : state -> Prop :=
| reachable_initial st :
    initial st -> reachable st
| reachable_exec e o st st' :
    reachable st -> exec e o st = Ok st' -> reachable st'
| reachable_collaborator st st' :
    reachable st -> same_core st st' -> reachable st'.

(** What a DISENGAGED->ENGAGED transition leaves behind. *)
Definition latched (e : env) (before after : state) : Prop :=
  AltHold after = estimatedAltitude before
  /\ initialThrottleHold after = rcData e THROTTLE
  /\ errorVelocityI after = 0
  /\ altHoldThrottleAdjustment after = 0.

(** Repeated calls of one state machine, each with the inputs of its own
    tick. *)
Definition repeat_calls (f : env -> state -> state) (es : list env)
    (st : state) : state :=
  fold_left (fun s e => f e s) es st.

(** The range of the velocity integrator. *)
Definition integrator_bounded (st : state) : Prop :=
  - (8192 * 200) <= errorVelocityI st <= 8192 * 200.

(** A tick is accepted when at least one update period has elapsed, in
    unsigned 32-bit arithmetic, since the last accepted one. *)
Definition accepted (st : state) (currentTimeUs : Z) : Prop :=
  BARO_UPDATE_FREQUENCY_40HZ <= uint32 (currentTimeUs - previousTimeUs st).

(** The first debug tap divides by the sample count only in the altitude
    debug mode. *)
Definition tap_defined (e : env) (st : state) : Prop :=
  debugMode_ALTITUDE e = false \/ accSumCount st <> 0.

End Altitude.

Arguments state B : clear implicits.

(** ** A concrete platform for closed examples *)

(** A barometer double: a calibration count-down and a fixed reading. *)
Record simBaro : Type := mkSimBaro {
  calibratingB : nat;
  simBaroAlt : Z
}.

#[export] Instance simBaroDriver : BaroDriver simBaro := {|
  isBaroCalibrationComplete b :=
    match calibratingB b with O => true | S _ => false end;
  performBaroCalibrationCycle b :=
    mkSimBaro (Nat.pred (calibratingB b)) (simBaroAlt b);
  baroCalculateAltitude b := (simBaroAlt b, b)
|}.

(** A platform with typical gains, filter coefficients 1.0 and the
    command range 1000..2000; what varies between the examples is left as
    arguments. *)
Definition simEnvWith (throttle : Z) (att : attitudeEulerAngles_t)
    (hasBaro hasSonar hasAcc : bool) (sonarAlt sonarCf sonarMax : Z)
    (debugAltitude fixedWing boxBaro boxSonar : bool) (fastChange : Z)
    : env :=
  {| rcData := fun c => match c with THROTTLE => throttle | _ => 0 end;
     attitude := att;
     sensors_BARO := hasBaro;
     sensors_SONAR := hasSonar;
     sensors_ACC := hasAcc;
     sonarAltitude := sonarAlt;
     sonarCfAltCm := sonarCf;
     sonarMaxAltWithTiltCm := sonarMax;
     accVelScale := F32.one;
     debugMode_ALTITUDE := debugAltitude;
     STATE_FIXED_WING := fixedWing;
     rcMode_BOXBARO := boxBaro;
     rcMode_BOXSONAR := boxSonar;
     pidProfile := mkPidProfile 50 120 45 1;
     alt_hold_deadband := 40;
     alt_hold_fast_change := fastChange;
     fixedwing_althold_reversed := false;
     baro_cf_alt := F32.one;
     baro_cf_vel := F32.one;
     PWM_RANGE_MIN := 1000;
     PWM_RANGE_MAX := 2000;
     BARO_MODE := Z.shiftl 1 3;
     SONAR_MODE := Z.shiftl 1 9 |}.

(** The controller's view: the stick at [throttle], level attitude, no
    sensor, the vehicle type, the two mode requests and the fast-change
    flag. *)
Definition simSticks (throttle : Z) (fixedWing boxBaro boxSonar : bool)
    (fastChange : Z) : env :=
  simEnvWith throttle (mkAttitude 0 0 0) false false false 0 100 300
    false fixedWing boxBaro boxSonar fastChange.

(** The estimator's view: which sensors are present, the ranging reading
    and its band, and whether the altitude debug mode is selected. *)
Definition simSensors (hasBaro hasSonar hasAcc : bool)
    (sonarAlt sonarCf sonarMax : Z) (debugAltitude : bool) : env :=
  simEnvWith 1500 (mkAttitude 0 0 0) hasBaro hasSonar hasAcc sonarAlt
    sonarCf sonarMax debugAltitude false false false 1.

(** The state at program start, with a barometer that needs [n] more
    calibration cycles and reads [alt]. *)
Definition simStart (n : nat) (alt : Z) : state simBaro :=
  {| setVelocity := 0; velocityControl := 0; errorVelocityI := 0;
     altHoldThrottleAdjustment := 0; AltHold := 0; estimatedVario := 0;
     estimatedAltitude := 0; initialThrottleHold := 0;
     isAltHoldChanged := 0; previousTimeUs := 0;
     vel := F32.zero; accAlt := F32.zero; lastBaroAlt := 0;
     accZ_old := F32.zero;
     rcCommand := fun c => match c with THROTTLE => 1000 | _ => 0 end;
     flightModeFlags := 0;
     accSum := [0; 0; 0]; accSumCount := 0; accTimeSum := 0;
     debug := fun _ => 0;
     baro := mkSimBaro n alt |}.

(** Hold engaged at throttle 1400 with adjustment 25. *)
Definition simHeld (command : rc_channel -> Z) : state simBaro :=
  set_rcCommand
    (set_altHoldThrottleAdjustment
       (set_initialThrottleHold (simStart 0 0) 1400) 25)
    command.

(** ** Exhaustive checks over a range of integers *)

(** [p] holds of every number whose binary notation is that of [prefix]
    followed by [n] more bits. *)
Fixpoint forall_bits (n : nat) (p : Z -> bool) (prefix : Z) : bool :=
  match n with
  | O => p prefix
  | S n' =>
      forall_bits n' p (2 * prefix) && forall_bits n' p (2 * prefix + 1)
  end.

Definition spec_float_eqb (a b : spec_float) : bool :=
  match a, b with
  | S754_zero s, S754_zero s' => Bool.eqb s s'
  | S754_infinity s, S754_infinity s' => Bool.eqb s s'
  | S754_nan, S754_nan => true
  | S754_finite s m x, S754_finite s' m' x' =>
      Bool.eqb s s' && Pos.eqb m m' && Z.eqb x x'
  | _, _ => false
  end.

(** The two quotients met at the ends of the ranging band, for a band of
    width [k]. *)
Definition band_ends_exact (k : Z) : bool :=
  (k =? 0)
  || (spec_float_eqb (F32.div (F32.of_Z k) (F32.of_Z k)) F32.one
      && spec_float_eqb (F32.div (F32.of_Z 0) (F32.of_Z k)) F32.zero).

(** ** The outer stage in the words of the specification *)

(** [clamp(x, lo, hi)] *)
Definition spec_clamp (x lo hi : Z) : Z := Z.max lo (Z.min x hi).

(** [deadband(x, d)]: values of magnitude below [d] are suppressed, the
    others lose [d] of their magnitude. *)
Definition spec_deadband (x d : Z) : Z :=
  if Z.abs x <? d then 0 else Z.sgn x * (Z.abs x - d).

(** [targetVelocity = clamp(P_alt * error / 128, -300, +300)] with
    [error = deadband(clamp(targetAltitude - currentAltitude, -500, +500),
    10)], over the integers, the quotient truncated. *)
Definition spec_targetVelocity (P_alt targetAltitude currentAltitude : Z)
    : Z :=
  let error := spec_clamp (targetAltitude - currentAltitude) (-500) 500 in
  let error := spec_deadband error 10 in
  spec_clamp (Z.quot (P_alt * error) 128) (-300) 300.

(** ** Frames and invariants of the entry points *)

Section Frames.

Context {B : Type}.

(** The objects the estimator leaves to the controller and to the hold
    state machines. *)
Definition hold_frame (st st' : state B) : Prop :=
  AltHold st' = AltHold st
  /\ setVelocity st' = setVelocity st
  /\ velocityControl st' = velocityControl st
  /\ initialThrottleHold st' = initialThrottleHold st
  /\ isAltHoldChanged st' = isAltHoldChanged st
  /\ rcCommand st' = rcCommand st
  /\ flightModeFlags st' = flightModeFlags st.

(** The objects the controller's output stage and the hold state machines
    leave to the estimator. *)
Definition estimate_frame (st st' : state B) : Prop :=
  estimatedAltitude st' = estimatedAltitude st
  /\ estimatedVario st' = estimatedVario st
  /\ previousTimeUs st' = previousTimeUs st
  /\ vel st' = vel st /\ accAlt st' = accAlt st
  /\ lastBaroAlt st' = lastBaroAlt st /\ accZ_old st' = accZ_old st
  /\ accSum st' = accSum st /\ accSumCount st' = accSumCount st
  /\ accTimeSum st' = accTimeSum st
  /\ debug st' = debug st /\ baro st' = baro st.

(** What the three sensor blocks, the debug taps and the accumulator
    reset leave alone: besides the controller's objects, the integrator,
    the published adjustment and vario and the previous acceleration. *)
Definition sensor_frame (st st' : state B) : Prop :=
  hold_frame st st'
  /\ errorVelocityI st' = errorVelocityI st
  /\ altHoldThrottleAdjustment st' = altHoldThrottleAdjustment st
  /\ estimatedVario st' = estimatedVario st
  /\ accZ_old st' = accZ_old st.

(** The two [uint8_t] flags hold 0 or 1. *)
Definition flags_boolean (st : state B) : Prop :=
  (velocityControl st = 0 \/ velocityControl st = 1)
  /\ (isAltHoldChanged st = 0 \/ isAltHoldChanged st = 1).

(** The range of the published throttle adjustment. *)
Definition adjustment_bounded (st : state B) : Prop :=
  -650 <= altHoldThrottleAdjustment st <= 650.

End Frames.

Section Runs.

Context {B : Type} {baroDriver : BaroDriver B}.

(** A sequence of calls, each with the inputs of its own tick; a fault
    ends the run. *)
Fixpoint run (calls : list (env * operation)) (st : state B)
    : result (state B) :=
  match calls with
  | [] => Ok st
  | (e, o) :: rest => st' <- exec e o st ;; run rest st'
  end.

(** The calls that are not calls of the estimator. *)
Definition is_estimator_call (o : operation) : bool :=
  match o with
  | OpCalculateEstimatedAltitude _ => true
  | _ => false
  end.

End Runs.

(** The D term for accelerations of zero and a gain [d]. *)
Definition dTermVanishes (d : Z) : bool :=
  F32.to_int32
    (F32.div (F32.mul (F32.of_Z d) (F32.add F32.zero F32.zero))
       (F32.of_Z 512))
  =? 0.

(** ** Proof automation *)

(** Side conditions stating that a value fits its C type. *)
Ltac fits :=
  unfold in_int32, in_int16, in_uint32, INT32_MIN, INT32_MAX in *;
  change (2 ^ 15) with 32768 in *; change (2 ^ 31) with 2147483648 in *;
  lia.

(** Case analysis on every test and on every pair a block returns. *)
Ltac split_branches :=
  repeat match goal with
         | |- context [if ?c then _ else _] => destruct c eqn:?
         | |- context [match ?p with pair _ _ => _ end] => destruct p eqn:?
         end.

(** Equations stating what the velocity stage leaves alone. *)
Create Rewrite HintDb velocity_frame.

(** * Properties *)

(** ** Arithmetic facts *)

Lemma int32_small z : in_int32 z -> int32 z = z.
Proof.
  unfold in_int32, INT32_MIN, INT32_MAX, int32, wrap_signed.
  intros Hz. change (2 ^ (32 - 1)) with 2147483648.
  change (2 ^ 32) with 4294967296.
  change (2 ^ 31) with 2147483648 in Hz.
  rewrite Z.mod_small; lia.
Qed.

Lemma int16_small z : in_int16 z -> int16 z = z.
Proof.
  unfold in_int16, int16, wrap_signed.
  intros Hz. change (2 ^ (16 - 1)) with 32768.
  change (2 ^ 16) with 65536. change (2 ^ 15) with 32768 in Hz.
  rewrite Z.mod_small; lia.
Qed.

Lemma constrain_bounds amt low high :
  low <= high -> low <= constrain amt low high <= high.
Proof.
  intros Hlh. unfold constrain.
  destruct (Z.ltb_spec amt low); [lia|].
  destruct (Z.ltb_spec high amt); lia.
Qed.

Lemma constrain_inside amt low high :
  low <= amt <= high -> constrain amt low high = amt.
Proof.
  intros Ha. unfold constrain.
  destruct (Z.ltb_spec amt low); [lia|].
  destruct (Z.ltb_spec high amt); lia.
Qed.

Lemma ABS_abs x : ABS x = Z.abs x.
Proof. unfold ABS. destruct (Z.ltb_spec 0 x); lia. Qed.

Lemma land_lor_mask f m : m <> 0 -> Z.land (Z.lor f m) m <> 0.
Proof.
  intros Hm Hz. rewrite Z.land_lor_distr_l, Z.land_diag in Hz.
  apply Z.lor_eq_0_iff in Hz. tauto.
Qed.

Section Properties.

Context {B : Type} {baroDriver : BaroDriver B}.

Implicit Types (e : env) (st : state B).

(** ** The attitude gate *)

Lemma isThrustFacingDownwards_spec a :
  isThrustFacingDownwards a = true
  <-> Z.abs (roll a) < 800 /\ Z.abs (pitch a) < 800.
Proof.
  unfold isThrustFacingDownwards, DEGREES_80_IN_DECIDEGREES.
  rewrite andb_true_iff, !Z.ltb_lt, !ABS_abs. tauto.
Qed.

(** C10: [isThrustFacingDownwards] holds exactly when both the roll and the
    pitch magnitude are below 800 decidegrees (so it fails at 800 and
    above), and whenever it fails [calculateAltHoldThrottleAdjustment]
    returns 0 and leaves the whole state, the velocity integrator included,
    as it was. *)
Theorem thrust_gate e st vel_tmp accZ_tmp accZ_old :
  (isThrustFacingDownwards (attitude e) = true
   <-> Z.abs (roll (attitude e)) < 800 /\ Z.abs (pitch (attitude e)) < 800)
  /\ (800 <= Z.abs (roll (attitude e)) \/ 800 <= Z.abs (pitch (attitude e))
      -> isThrustFacingDownwards (attitude e) = false
         /\ calculateAltHoldThrottleAdjustment e st vel_tmp accZ_tmp accZ_old
            = (0, st)).
Proof.
  split; [apply isThrustFacingDownwards_spec|].
  intros Hbig.
  assert (Hf : isThrustFacingDownwards (attitude e) = false).
  { destruct (isThrustFacingDownwards (attitude e)) eqn:Ht; [|reflexivity].
    apply isThrustFacingDownwards_spec in Ht. lia. }
  split; [exact Hf|].
  unfold calculateAltHoldThrottleAdjustment. rewrite Hf. reflexivity.
Qed.

(** ** The rate limit *)

(** C4: a call less than 25000 microseconds (in unsigned 32-bit arithmetic)
    after the last accepted update returns the state it was given: the
    estimate, the vario, the throttle adjustment and the fusion state are
    all unchanged. *)
Theorem rate_limit_noop e st currentTimeUs :
  uint32 (currentTimeUs - previousTimeUs st) < 25000 ->
  calculateEstimatedAltitude e st currentTimeUs = Ok st.
Proof.
  intros Hd. unfold calculateEstimatedAltitude.
  change BARO_UPDATE_FREQUENCY_40HZ with 25000.
  apply Z.ltb_lt in Hd. rewrite Hd. reflexivity.
Qed.

(** ** Hold engagement *)

Lemma updateAltHoldState_engage e st :
  rcMode_BOXBARO e = true -> BARO_MODE e <> 0 ->
  FLIGHT_MODE st (BARO_MODE e) = false ->
  latched e st (updateAltHoldState e st)
  /\ FLIGHT_MODE (updateAltHoldState e st) (BARO_MODE e) = true.
Proof.
  intros Hrc Hm Hf. unfold updateAltHoldState. rewrite Hrc, Hf. simpl.
  split; [repeat split|].
  unfold FLIGHT_MODE. simpl.
  apply negb_true_iff, Z.eqb_neq, land_lor_mask, Hm.
Qed.

Lemma updateAltHoldState_engaged e st :
  rcMode_BOXBARO e = true -> FLIGHT_MODE st (BARO_MODE e) = true ->
  updateAltHoldState e st = st.
Proof.
  intros Hrc Hf. unfold updateAltHoldState. rewrite Hrc, Hf. reflexivity.
Qed.

Lemma updateSonarAltHoldState_engage e st :
  rcMode_BOXSONAR e = true -> SONAR_MODE e <> 0 ->
  FLIGHT_MODE st (SONAR_MODE e) = false ->
  latched e st (updateSonarAltHoldState e st)
  /\ FLIGHT_MODE (updateSonarAltHoldState e st) (SONAR_MODE e) = true.
Proof.
  intros Hrc Hm Hf. unfold updateSonarAltHoldState. rewrite Hrc, Hf. simpl.
  split; [repeat split|].
  unfold FLIGHT_MODE. simpl.
  apply negb_true_iff, Z.eqb_neq, land_lor_mask, Hm.
Qed.

Lemma updateSonarAltHoldState_engaged e st :
  rcMode_BOXSONAR e = true -> FLIGHT_MODE st (SONAR_MODE e) = true ->
  updateSonarAltHoldState e st = st.
Proof.
  intros Hrc Hf. unfold updateSonarAltHoldState. rewrite Hrc, Hf.
  reflexivity.
Qed.

Lemma repeat_engaged_baro mask es : forall st,
  Forall (fun e => rcMode_BOXBARO e = true /\ BARO_MODE e = mask) es ->
  FLIGHT_MODE st mask = true ->
  repeat_calls updateAltHoldState es st = st.
Proof.
  induction es as [|e es IH]; intros st Hes Hf; [reflexivity|].
  inversion Hes as [|? ? [Hrc Hm] Hes']; subst. simpl.
  rewrite updateAltHoldState_engaged by assumption.
  apply IH; assumption.
Qed.

Lemma repeat_engaged_sonar mask es : forall st,
  Forall (fun e => rcMode_BOXSONAR e = true /\ SONAR_MODE e = mask) es ->
  FLIGHT_MODE st mask = true ->
  repeat_calls updateSonarAltHoldState es st = st.
Proof.
  induction es as [|e es IH]; intros st Hes Hf; [reflexivity|].
  inversion Hes as [|? ? [Hrc Hm] Hes']; subst. simpl.
  rewrite updateSonarAltHoldState_engaged by assumption.
  apply IH; assumption.
Qed.

(** C5: in each of the two hold state machines the DISENGAGED->ENGAGED
    transition latches the target altitude to the current estimate and the
    engage-time throttle to the current stick value and zeroes the
    integrator and the adjustment; the machine is then engaged, an engaged
    machine called with its request active returns the state it was given,
    and so does any sequence of such calls after the transition. *)
Theorem hold_engagement_latches_once e st :
  (rcMode_BOXBARO e = true -> BARO_MODE e <> 0 ->
   FLIGHT_MODE st (BARO_MODE e) = false ->
   latched e st (updateAltHoldState e st)
   /\ (forall e' st',
         rcMode_BOXBARO e' = true -> FLIGHT_MODE st' (BARO_MODE e') = true ->
         updateAltHoldState e' st' = st')
   /\ (forall es,
         Forall (fun e' => rcMode_BOXBARO e' = true
                           /\ BARO_MODE e' = BARO_MODE e) es ->
         repeat_calls updateAltHoldState es (updateAltHoldState e st)
         = updateAltHoldState e st))
  /\ (rcMode_BOXSONAR e = true -> SONAR_MODE e <> 0 ->
      FLIGHT_MODE st (SONAR_MODE e) = false ->
      latched e st (updateSonarAltHoldState e st)
      /\ (forall e' st',
            rcMode_BOXSONAR e' = true ->
            FLIGHT_MODE st' (SONAR_MODE e') = true ->
            updateSonarAltHoldState e' st' = st')
      /\ (forall es,
            Forall (fun e' => rcMode_BOXSONAR e' = true
                              /\ SONAR_MODE e' = SONAR_MODE e) es ->
            repeat_calls updateSonarAltHoldState es
              (updateSonarAltHoldState e st)
            = updateSonarAltHoldState e st)).
Proof.
  split; intros Hrc Hm Hf.
  - destruct (updateAltHoldState_engage e st Hrc Hm Hf) as [Hl He].
    split; [exact Hl|]. split.
    + intros e' st'. apply updateAltHoldState_engaged.
    + intros es Hes. apply repeat_engaged_baro with (mask := BARO_MODE e);
        assumption.
  - destruct (updateSonarAltHoldState_engage e st Hrc Hm Hf) as [Hl He].
    split; [exact Hl|]. split.
    + intros e' st'. apply updateSonarAltHoldState_engaged.
    + intros es Hes. apply repeat_engaged_sonar with (mask := SONAR_MODE e);
        assumption.
Qed.

(** ** The controller's stages *)

Lemma quot_8192_bounds x :
  - (8192 * 200) <= x <= 8192 * 200 -> -200 <= Z.quot x 8192 <= 200.
Proof.
  intros [Hlo Hhi]. split.
  - change (-200) with (Z.quot (- (8192 * 200)) 8192).
    apply Z.quot_le_mono; lia.
  - change 200 with (Z.quot (8192 * 200) 8192).
    apply Z.quot_le_mono; lia.
Qed.

Lemma velocityP_bounds e error : -300 <= velocityP e error <= 300.
Proof. apply constrain_bounds. lia. Qed.

Lemma velocityI_bounds e st error :
  - (8192 * 200) <= velocityI e st error <= 8192 * 200.
Proof. apply constrain_bounds. lia. Qed.

Lemma velocityD_bounds e a b : -150 <= velocityD e a b <= 150.
Proof. apply constrain_bounds. lia. Qed.

(** The value returned when the gate is open, as a sum of the stages. *)
Lemma adjustment_sum e st vel_tmp accZ_tmp accZ_old :
  isThrustFacingDownwards (attitude e) = true ->
  let error := int32 (altitudeSetVel e st - vel_tmp) in
  calculateAltHoldThrottleAdjustment e st vel_tmp accZ_tmp accZ_old
  = (velocityP e error + Z.quot (velocityI e st error) 8192
     - velocityD e accZ_tmp accZ_old,
     set_errorVelocityI st (velocityI e st error)).
Proof.
  intros Ht error. unfold calculateAltHoldThrottleAdjustment.
  rewrite Ht. simpl. fold error.
  pose proof (velocityP_bounds e error) as HP.
  pose proof (quot_8192_bounds _ (velocityI_bounds e st error)) as HI.
  pose proof (velocityD_bounds e accZ_tmp accZ_old) as HD.
  rewrite (int32_small (velocityP e error + _))
    by fits.
  rewrite int32_small by fits.
  reflexivity.
Qed.

(** C7: the adjustment returned by [calculateAltHoldThrottleAdjustment] is
    the sum of a P term within 300, an I term within 200 and a D term
    within 150 of zero, so its magnitude never exceeds 650, although the
    sum itself is not clamped; this holds for every input, whatever the
    integrator held on entry. *)
Theorem adjustment_magnitude e st vel_tmp accZ_tmp accZ_old :
  Z.abs (fst (calculateAltHoldThrottleAdjustment e st vel_tmp accZ_tmp
                accZ_old)) <= 300 + 200 + 150.
Proof.
  destruct (isThrustFacingDownwards (attitude e)) eqn:Ht.
  - rewrite adjustment_sum by exact Ht. cbv zeta. simpl fst.
    set (error := int32 (altitudeSetVel e st - vel_tmp)).
    pose proof (velocityP_bounds e error).
    pose proof (quot_8192_bounds _ (velocityI_bounds e st error)).
    pose proof (velocityD_bounds e accZ_tmp accZ_old).
    lia.
  - unfold calculateAltHoldThrottleAdjustment. rewrite Ht. simpl. lia.
Qed.

Lemma constrain_spec_clamp x lo hi :
  lo <= hi -> constrain x lo hi = spec_clamp x lo hi.
Proof.
  intros Hlh. unfold constrain, spec_clamp.
  destruct (Z.ltb_spec x lo); [lia|].
  destruct (Z.ltb_spec hi x); lia.
Qed.

Lemma applyDeadband_spec_deadband x d :
  0 <= d -> in_int32 x -> applyDeadband x d = spec_deadband x d.
Proof.
  unfold in_int32, INT32_MIN, INT32_MAX.
  intros Hd Hx. unfold applyDeadband, spec_deadband. rewrite ABS_abs.
  destruct (Z.ltb_spec (Z.abs x) d); [reflexivity|].
  destruct (Z.ltb_spec 0 x).
  - rewrite int32_small by fits.
    rewrite Z.sgn_pos by lia. lia.
  - destruct (Z.ltb_spec x 0).
    + rewrite int32_small by fits.
      rewrite Z.sgn_neg by lia. lia.
    + assert (x = 0) by lia. subst. simpl in *. lia.
Qed.

(** C8: outside velocity-control mode the target velocity computed by the
    outer stage is clamp(P_alt * deadband(clamp(AltHold -
    estimatedAltitude, -500, 500), 10) / 128, -300, 300): as the C
    expression in every state, and as the same formula over the integers
    for a gain of type [uint8_t] and a representable altitude difference.
    For AltHold = 1000 and estimatedAltitude = 400 the error clamps to 500,
    the deadbanded error is 490 and the target velocity is
    clamp(P_alt * 490 / 128, -300, 300). *)
Theorem altitude_P_stage e st :
  velocityControl st = 0 ->
  let P_alt := P8_PIDALT (pidProfile e) in
  let error :=
    constrain (int32 (AltHold st - estimatedAltitude st)) (-500) 500 in
  altitudeSetVel e st
  = constrain (Z.quot (int32 (P_alt * applyDeadband error 10)) 128)
      (-300) 300
  /\ (0 <= P_alt <= 255 ->
      in_int32 (AltHold st - estimatedAltitude st) ->
      altitudeSetVel e st
      = spec_targetVelocity P_alt (AltHold st) (estimatedAltitude st))
  /\ (0 <= P_alt <= 255 ->
      AltHold st = 1000 -> estimatedAltitude st = 400 ->
      error = 500
      /\ applyDeadband error 10 = 490
      /\ altitudeSetVel e st
         = spec_clamp (Z.quot (P_alt * 490) 128) (-300) 300).
Proof.
  intros Hvc P_alt error.
  assert (Hc : altitudeSetVel e st
               = constrain
                   (Z.quot (int32 (P_alt * applyDeadband error 10)) 128)
                   (-300) 300).
  { unfold altitudeSetVel. rewrite Hvc. reflexivity. }
  assert (Heq : 0 <= P_alt <= 255 ->
                in_int32 (AltHold st - estimatedAltitude st) ->
                altitudeSetVel e st
                = spec_targetVelocity P_alt (AltHold st)
                    (estimatedAltitude st)).
  { intros HP Hd. rewrite Hc. unfold error, spec_targetVelocity.
    rewrite (int32_small _ Hd).
    rewrite (constrain_spec_clamp _ (-500) 500) by lia.
    set (err := spec_clamp (AltHold st - estimatedAltitude st) (-500) 500).
    assert (Herr : -500 <= err <= 500) by (unfold err, spec_clamp; lia).
    rewrite applyDeadband_spec_deadband by fits.
    set (db := spec_deadband err 10).
    assert (Hdb : -500 <= db <= 500).
    { unfold db, spec_deadband. destruct (Z.ltb_spec (Z.abs err) 10); lia. }
    rewrite int32_small by (unfold in_int32, INT32_MIN, INT32_MAX; nia).
    apply constrain_spec_clamp. lia. }
  split; [exact Hc|]. split; [exact Heq|].
  intros HP HA HE.
  assert (Herror : error = 500) by (unfold error; rewrite HA, HE; reflexivity).
  split; [exact Herror|]. rewrite Herror. split; [reflexivity|].
  rewrite Heq by (try assumption; rewrite HA, HE; fits).
  unfold spec_targetVelocity. rewrite HA, HE. reflexivity.
Qed.

(** ** The velocity integrator *)

(** What each entry point does to [errorVelocityI]: it is kept, zeroed, or
    replaced by the clamped I term. *)
Lemma applyAltHold_integrator e st :
  errorVelocityI (applyAltHold e st) = errorVelocityI st
  \/ errorVelocityI (applyAltHold e st) = 0.
Proof.
  unfold applyAltHold, applyFixedWingAltHold, applyMultirotorAltHold.
  repeat match goal with
         | |- context [if ?c then _ else _] => destruct c
         end; simpl; auto.
Qed.

Lemma updateAltHoldState_integrator e st :
  errorVelocityI (updateAltHoldState e st) = errorVelocityI st
  \/ errorVelocityI (updateAltHoldState e st) = 0.
Proof.
  unfold updateAltHoldState.
  repeat match goal with
         | |- context [if ?c then _ else _] => destruct c
         end; simpl; auto.
Qed.

Lemma updateSonarAltHoldState_integrator e st :
  errorVelocityI (updateSonarAltHoldState e st) = errorVelocityI st
  \/ errorVelocityI (updateSonarAltHoldState e st) = 0.
Proof.
  unfold updateSonarAltHoldState.
  repeat match goal with
         | |- context [if ?c then _ else _] => destruct c
         end; simpl; auto.
Qed.

Lemma baroStage_integrator e st :
  errorVelocityI (snd (baroStage e st)) = errorVelocityI st.
Proof.
  unfold baroStage. destruct (sensors_BARO e); [|reflexivity].
  destruct (isBaroCalibrationComplete (baro st)); simpl; [|reflexivity].
  destruct (baroCalculateAltitude (baro st)). reflexivity.
Qed.

Lemma sonarStage_integrator e baroAlt st :
  errorVelocityI (sonarStage e baroAlt st) = errorVelocityI st.
Proof.
  unfold sonarStage. destruct (sensors_SONAR e); [|reflexivity].
  destruct (sonarInRange e (sonarAltitude e)); reflexivity.
Qed.

Lemma accStage_integrator e baroAlt st :
  errorVelocityI (snd (accStage e baroAlt st)) = errorVelocityI st.
Proof. unfold accStage. destruct (sensors_ACC e); reflexivity. Qed.

Lemma DEBUG_SET_integrator e st slot value st' :
  DEBUG_SET e st slot value = Ok st' ->
  errorVelocityI st' = errorVelocityI st.
Proof.
  unfold DEBUG_SET. destruct (debugMode_ALTITUDE e).
  - destruct value; simpl; [|discriminate].
    intros Heq. injection Heq as <-. reflexivity.
  - intros Heq. injection Heq as <-. reflexivity.
Qed.

Lemma debugTaps_integrator e st st' :
  debugTaps e st = Ok st' -> errorVelocityI st' = errorVelocityI st.
Proof.
  unfold debugTaps. intros Heq.
  destruct (DEBUG_SET e st DEBUG_ALTITUDE_ACC _) as [s1|] eqn:H1;
    [|discriminate].
  simpl in Heq.
  destruct (DEBUG_SET e s1 DEBUG_ALTITUDE_VEL _) as [s2|] eqn:H2;
    [|discriminate].
  simpl in Heq.
  apply DEBUG_SET_integrator in H1, H2, Heq. congruence.
Qed.

Lemma velocityStage_integrator e st baroVel accZ_tmp :
  integrator_bounded st ->
  integrator_bounded (velocityStage e st baroVel accZ_tmp).
Proof.
  unfold integrator_bounded, velocityStage,
    calculateAltHoldThrottleAdjustment.
  intros Hb.
  destruct (isThrustFacingDownwards (attitude e)); simpl.
  - apply velocityI_bounds.
  - exact Hb.
Qed.

Lemma calculateEstimatedAltitude_integrator e st t st' :
  calculateEstimatedAltitude e st t = Ok st' ->
  integrator_bounded st -> integrator_bounded st'.
Proof.
  unfold calculateEstimatedAltitude. intros Heq Hb.
  destruct (_ <? BARO_UPDATE_FREQUENCY_40HZ).
  { injection Heq as <-. exact Hb. }
  destruct (baroStage e (set_previousTimeUs st t)) as [baroAlt s1] eqn:H1.
  destruct (accStage e baroAlt (sonarStage e baroAlt s1))
    as [accZ_tmp s3] eqn:H3.
  destruct (debugTaps e s3) as [s4|] eqn:H4; [|discriminate].
  simpl in Heq.
  assert (Hb4 : integrator_bounded (imuResetAccelerationSum s4)).
  { unfold integrator_bounded in *. simpl.
    rewrite (debugTaps_integrator _ _ _ H4).
    replace s3 with (snd (accStage e baroAlt (sonarStage e baroAlt s1)))
      by (rewrite H3; reflexivity).
    rewrite accStage_integrator, sonarStage_integrator.
    replace s1 with (snd (baroStage e (set_previousTimeUs st t)))
      by (rewrite H1; reflexivity).
    rewrite baroStage_integrator. exact Hb. }
  destruct (sensors_BARO e).
  - destruct (isBaroCalibrationComplete _); simpl in Heq;
      injection Heq as <-.
    + apply velocityStage_integrator. exact Hb4.
    + exact Hb4.
  - injection Heq as <-. apply velocityStage_integrator. exact Hb4.
Qed.

Lemma exec_integrator e o st st' :
  exec e o st = Ok st' -> integrator_bounded st -> integrator_bounded st'.
Proof.
  unfold integrator_bounded.
  destruct o; simpl; intros Heq Hb.
  - injection Heq as <-. destruct (applyAltHold_integrator e st); lia.
  - injection Heq as <-. destruct (updateAltHoldState_integrator e st); lia.
  - injection Heq as <-.
    destruct (updateSonarAltHoldState_integrator e st); lia.
  - eapply calculateEstimatedAltitude_integrator; eassumption.
Qed.

(** C6: in every state the core can reach from program start, by any
    sequence of its entry points with any inputs, the velocity integrator
    lies within -(8192*200) .. 8192*200. *)
Theorem integrator_always_bounded st :
  reachable st -> -1638400 <= errorVelocityI st <= 1638400.
Proof.
  intros Hr. change (integrator_bounded st).
  induction Hr as [st Hi | e o st st' _ IH Hx | st st' _ IH Hs].
  - destruct Hi as (_ & _ & H0 & _). unfold integrator_bounded.
    rewrite H0. lia.
  - eapply exec_integrator; eassumption.
  - destruct Hs as (_ & _ & H0 & _). unfold integrator_bounded in *.
    rewrite H0. exact IH.
Qed.

(** ** Accepted ticks *)

Lemma accepted_ltb st t :
  accepted st t ->
  (uint32 (t - previousTimeUs st) <? BARO_UPDATE_FREQUENCY_40HZ) = false.
Proof. unfold accepted. intros Ha. apply Z.ltb_ge. exact Ha. Qed.

(** The debug taps only write debug slots, and fault only when the first
    one divides by a zero sample count. *)
Lemma debugTaps_defined e st :
  tap_defined e st -> exists d, debugTaps e st = Ok (set_debug st d).
Proof.
  unfold tap_defined, debugTaps, DEBUG_SET, idiv. intros Ht.
  destruct (debugMode_ALTITUDE e).
  - destruct Ht as [Ht|Ht]; [discriminate|].
    apply Z.eqb_neq in Ht. rewrite Ht. simpl. eexists. reflexivity.
  - simpl. exists (debug st). destruct st; reflexivity.
Qed.

Lemma debugTaps_fault e st :
  debugMode_ALTITUDE e = true -> accSumCount st = 0 ->
  debugTaps e st = DivisionByZero.
Proof.
  intros Hd Hc. unfold debugTaps, DEBUG_SET, idiv. rewrite Hd, Hc.
  reflexivity.
Qed.

Lemma baroStage_accSumCount e st :
  accSumCount (snd (baroStage e st)) = accSumCount st.
Proof.
  unfold baroStage. destruct (sensors_BARO e); [|reflexivity].
  destruct (isBaroCalibrationComplete (baro st)); simpl; [|reflexivity].
  destruct (baroCalculateAltitude (baro st)). reflexivity.
Qed.

Lemma sonarStage_accSumCount e baroAlt st :
  accSumCount (sonarStage e baroAlt st) = accSumCount st.
Proof.
  unfold sonarStage. destruct (sensors_SONAR e); [|reflexivity].
  destruct (sonarInRange e (sonarAltitude e)); reflexivity.
Qed.

Lemma accStage_accSumCount e baroAlt st :
  accSumCount (snd (accStage e baroAlt st)) = accSumCount st.
Proof. unfold accStage. destruct (sensors_ACC e); reflexivity. Qed.

(** The sample count seen by the debug taps is the one of the call's
    entry. *)
Lemma stages_accSumCount e st t :
  accSumCount
    (snd (accStage e (fst (baroStage e (set_previousTimeUs st t)))
            (sonarStage e (fst (baroStage e (set_previousTimeUs st t)))
               (snd (baroStage e (set_previousTimeUs st t))))))
  = accSumCount st.
Proof.
  rewrite accStage_accSumCount, sonarStage_accSumCount,
    baroStage_accSumCount.
  reflexivity.
Qed.

(** The shape of an accepted tick: the three sensor blocks, the debug
    taps, and the velocity stage unless the barometer is present and (now)
    uncalibrated. *)
Lemma accepted_tick e st t :
  accepted st t -> tap_defined e st ->
  let s0 := set_previousTimeUs st t in
  let baroAlt := fst (baroStage e s0) in
  let s1 := snd (baroStage e s0) in
  let s2 := sonarStage e baroAlt s1 in
  let accZ_tmp := fst (accStage e baroAlt s2) in
  let s3 := snd (accStage e baroAlt s2) in
  exists d,
    let s5 := imuResetAccelerationSum (set_debug s3 d) in
    calculateEstimatedAltitude e st t
    = Ok (if sensors_BARO e then
            if negb (isBaroCalibrationComplete (baro s5)) then s5
            else velocityStage e (set_lastBaroAlt s5 baroAlt)
                   (baroVelocity s5 baroAlt
                      (uint32 (t - previousTimeUs st)))
                   accZ_tmp
          else velocityStage e s5 0 accZ_tmp).
Proof.
  intros Ha Ht s0 baroAlt s1 s2 accZ_tmp s3.
  assert (Ht3 : tap_defined e s3).
  { unfold tap_defined in *. unfold s3, s2, s1, baroAlt, s0.
    rewrite stages_accSumCount. exact Ht. }
  destruct (debugTaps_defined e s3 Ht3) as [d Hd]. exists d.
  unfold calculateEstimatedAltitude. rewrite (accepted_ltb _ _ Ha).
  fold s0. rewrite (surjective_pairing (baroStage e s0)).
  fold baroAlt s1 s2.
  rewrite (surjective_pairing (accStage e baroAlt s2)).
  fold accZ_tmp s3. rewrite Hd. simpl bind. cbv zeta.
  destruct (sensors_BARO e); [|reflexivity].
  destruct (isBaroCalibrationComplete _); reflexivity.
Qed.

Lemma velocityStage_estimatedAltitude e st baroVel accZ_tmp :
  estimatedAltitude (velocityStage e st baroVel accZ_tmp)
  = estimatedAltitude st.
Proof.
  unfold velocityStage, calculateAltHoldThrottleAdjustment.
  destruct (isThrustFacingDownwards (attitude e)); reflexivity.
Qed.

Lemma velocityStage_accAlt e st baroVel accZ_tmp :
  accAlt (velocityStage e st baroVel accZ_tmp) = accAlt st.
Proof.
  unfold velocityStage, calculateAltHoldThrottleAdjustment.
  destruct (isThrustFacingDownwards (attitude e)); reflexivity.
Qed.

Lemma velocityStage_baro e st baroVel accZ_tmp :
  baro (velocityStage e st baroVel accZ_tmp) = baro st.
Proof.
  unfold velocityStage, calculateAltHoldThrottleAdjustment.
  destruct (isThrustFacingDownwards (attitude e)); reflexivity.
Qed.

#[local] Hint Rewrite velocityStage_estimatedAltitude velocityStage_accAlt
  velocityStage_baro : velocity_frame.

(** C1 (as amended): on an accepted tick with the barometer present and
    uncalibrated the call performs one calibration cycle and zeroes [vel]
    and [accAlt] before the ranging and accelerometer blocks, which still
    run, with a barometric altitude of 0.  If the calibration is still
    incomplete after the cycle the call exits before the velocity stage:
    the vario and the throttle adjustment are unchanged and, with no
    accelerometer, [vel] and [accAlt] are 0 on exit.  The estimate is
    unchanged only when neither an in-band ranging reading nor an
    accelerometer is present; otherwise it is the ranging blend, or the
    integrated altitude accumulator when the accelerometer is present. *)
Theorem calibration_tick e st t :
  accepted st t -> sensors_BARO e = true ->
  isBaroCalibrationComplete (baro st) = false -> tap_defined e st ->
  exists st',
    calculateEstimatedAltitude e st t = Ok st'
    /\ baro st' = performBaroCalibrationCycle (baro st)
    /\ baroStage e (set_previousTimeUs st t)
       = (0, set_accAlt
               (set_vel
                  (set_baro (set_previousTimeUs st t)
                     (performBaroCalibrationCycle (baro st)))
                  F32.zero)
               F32.zero)
    /\ (isBaroCalibrationComplete (performBaroCalibrationCycle (baro st))
        = false ->
        estimatedVario st' = estimatedVario st
        /\ altHoldThrottleAdjustment st' = altHoldThrottleAdjustment st
        /\ (sensors_ACC e = false ->
            vel st' = F32.zero /\ accAlt st' = F32.zero))
    /\ (sensors_ACC e = false ->
        sensors_SONAR e && sonarInRange e (sonarAltitude e) = false ->
        estimatedAltitude st' = estimatedAltitude st)
    /\ (sensors_ACC e = false ->
        sensors_SONAR e && sonarInRange e (sonarAltitude e) = true ->
        estimatedAltitude st'
        = sonarBlend (sonarAltitude e) 0
            (sonarTransition e (sonarAltitude e)))
    /\ (sensors_ACC e = true ->
        estimatedAltitude st' = F32.to_int32 (accAlt st')).
Proof.
  intros Ha Hb Hn Ht.
  destruct (accepted_tick e st t Ha Ht) as [d Hd]. cbv zeta in Hd.
  eexists. split; [exact Hd|]. clear Hd.
  assert (Hs : baroStage e (set_previousTimeUs st t)
               = (0, set_accAlt
                       (set_vel
                          (set_baro (set_previousTimeUs st t)
                             (performBaroCalibrationCycle (baro st)))
                          F32.zero)
                       F32.zero)).
  { unfold baroStage. rewrite Hb. simpl. rewrite Hn. reflexivity. }
  rewrite Hs, Hb. simpl fst. simpl snd.
  unfold sonarStage, accStage.
  destruct (sensors_SONAR e), (sonarInRange e (sonarAltitude e)),
    (sensors_ACC e); simpl;
    destruct (isBaroCalibrationComplete
                (performBaroCalibrationCycle (baro st))); simpl;
    autorewrite with velocity_frame; simpl;
    repeat split; intros; try discriminate; reflexivity.
Qed.

(** ** The command channels *)

(** C2 (as amended): on a rotary-wing vehicle the throttle command is the
    engage-time throttle plus the adjustment, clamped to PWM_RANGE_MIN ..
    PWM_RANGE_MAX, in slow mode and, in fast mode, while the stick is
    within the deadband; in fast mode with the stick beyond the deadband
    the incoming command is biased by the deadband and not clamped.  On a
    fixed-wing vehicle the adjustment, with the configured sign, is added
    to the incoming pitch command, not clamped, and the throttle command
    is untouched. *)
Theorem command_adjustment e st :
  in_int16 (PWM_RANGE_MIN e) -> in_int16 (PWM_RANGE_MAX e) ->
  PWM_RANGE_MIN e <= PWM_RANGE_MAX e ->
  let deviation := ABS (int32 (rcData e THROTTLE - initialThrottleHold st)) in
  let st' := applyAltHold e st in
  (STATE_FIXED_WING e = false ->
   (alt_hold_fast_change e = 0 \/ deviation <= alt_hold_deadband e ->
    rcCommand st' THROTTLE
    = constrain (int32 (initialThrottleHold st
                        + altHoldThrottleAdjustment st))
        (PWM_RANGE_MIN e) (PWM_RANGE_MAX e)
    /\ PWM_RANGE_MIN e <= rcCommand st' THROTTLE <= PWM_RANGE_MAX e)
   /\ (alt_hold_fast_change e <> 0 -> alt_hold_deadband e < deviation ->
       rcCommand st' THROTTLE
       = int16 (rcCommand st THROTTLE
                + (if initialThrottleHold st <? rcData e THROTTLE
                   then - alt_hold_deadband e else alt_hold_deadband e))))
  /\ (STATE_FIXED_WING e = true ->
      rcCommand st' PITCH
      = int16 (rcCommand st PITCH
               + int32 (altHoldThrottleAdjustment st
                        * GET_DIRECTION (fixedwing_althold_reversed e)))
      /\ rcCommand st' THROTTLE = rcCommand st THROTTLE).
Proof.
  intros Hmin Hmax Hle deviation st'. subst st'. unfold applyAltHold.
  split; intros Hfw; rewrite Hfw; [|split; reflexivity].
  pose proof (constrain_bounds
                (int32 (initialThrottleHold st
                        + altHoldThrottleAdjustment st))
                _ _ Hle) as Hc.
  assert (Hclamp :
            int16 (constrain
                     (int32 (initialThrottleHold st
                             + altHoldThrottleAdjustment st))
                     (PWM_RANGE_MIN e) (PWM_RANGE_MAX e))
            = constrain
                (int32 (initialThrottleHold st
                        + altHoldThrottleAdjustment st))
                (PWM_RANGE_MIN e) (PWM_RANGE_MAX e)).
  { apply int16_small. unfold in_int16 in *. lia. }
  unfold applyMultirotorAltHold. fold deviation. split.
  - intros Hcase.
    destruct (Z.eqb_spec (alt_hold_fast_change e) 0) as [Hz|Hnz]; simpl.
    + destruct (alt_hold_deadband e <? deviation);
        [|destruct (negb (isAltHoldChanged st =? 0))]; simpl;
        rewrite Hclamp; split; (reflexivity || exact Hc).
    + destruct Hcase as [Hz|Hdev]; [contradiction|].
      apply Z.ltb_ge in Hdev. rewrite Hdev.
      destruct (negb (isAltHoldChanged st =? 0)); simpl;
        rewrite Hclamp; split; (reflexivity || exact Hc).
  - intros Hnz Hdev.
    apply Z.eqb_neq in Hnz. rewrite Hnz. simpl.
    apply Z.ltb_lt in Hdev. rewrite Hdev. reflexivity.
Qed.

(** ** The debug tap *)

(** C3: when the altitude debug mode is selected and no acceleration
    sample was accumulated, the mean vertical acceleration stays 0 (the
    integrator guards its division) but the first debug tap divides the
    accumulated acceleration by the sample count all the same, on every
    accepted tick. *)
Theorem debug_tap_zero_count e st t :
  accepted st t -> debugMode_ALTITUDE e = true -> accSumCount st = 0 ->
  meanAccZ st = F32.zero
  /\ calculateEstimatedAltitude e st t = DivisionByZero.
Proof.
  intros Ha Hd Hc. split.
  - unfold meanAccZ. rewrite Hc. reflexivity.
  - unfold calculateEstimatedAltitude. rewrite (accepted_ltb _ _ Ha).
    rewrite (surjective_pairing (baroStage e _)).
    rewrite (surjective_pairing (accStage e _ _)).
    rewrite debugTaps_fault; [reflexivity|exact Hd|].
    rewrite stages_accSumCount. exact Hc.
Qed.

(** ** The ranging blend *)

Lemma forall_bits_spec p : forall n prefix,
  forall_bits n p prefix = true ->
  forall k,
    prefix * 2 ^ Z.of_nat n <= k < (prefix + 1) * 2 ^ Z.of_nat n ->
    p k = true.
Proof.
  induction n as [|n IH]; intros prefix Hall k Hk.
  - simpl in Hall. change (2 ^ Z.of_nat 0) with 1 in Hk.
    replace k with prefix by lia. exact Hall.
  - cbn [forall_bits] in Hall. apply andb_true_iff in Hall as [Hl Hr].
    rewrite Nat2Z.inj_succ, Z.pow_succ_r in Hk by lia.
    destruct (Z_lt_le_dec k ((2 * prefix + 1) * 2 ^ Z.of_nat n)).
    + apply (IH _ Hl). lia.
    + apply (IH _ Hr). lia.
Qed.

Lemma spec_float_eqb_eq a b : spec_float_eqb a b = true -> a = b.
Proof.
  destruct a as [s|s| |s m x], b as [s'|s'| |s' m' x']; simpl;
    try discriminate; try reflexivity.
  - intros H. apply Bool.eqb_prop in H. congruence.
  - intros H. apply Bool.eqb_prop in H. congruence.
  - intros H. apply andb_true_iff in H as [H Hx].
    apply andb_true_iff in H as [Hs Hm].
    apply Bool.eqb_prop in Hs. apply Pos.eqb_eq in Hm.
    apply Z.eqb_eq in Hx. congruence.
Qed.

(** Every band width that two [int16_t] limits can have. *)
Lemma band_ends_checked : forall_bits 16 band_ends_exact 0 = true.
Proof. vm_compute. reflexivity. Qed.

Lemma band_ends k :
  1 <= k <= 65535 ->
  F32.div (F32.of_Z k) (F32.of_Z k) = F32.one
  /\ F32.div (F32.of_Z 0) (F32.of_Z k) = F32.zero.
Proof.
  intros Hk.
  pose proof (forall_bits_spec _ _ _ band_ends_checked k) as Hc.
  change (2 ^ Z.of_nat 16) with 65536 in Hc.
  specialize (Hc ltac:(lia)).
  unfold band_ends_exact in Hc. apply orb_true_iff in Hc as [Hz|Hc].
  - apply Z.eqb_eq in Hz. lia.
  - apply andb_true_iff in Hc as [H1 H0].
    split; apply spec_float_eqb_eq; assumption.
Qed.

Lemma sonarTransition_ends e :
  in_int16 (sonarCfAltCm e) -> in_int16 (sonarMaxAltWithTiltCm e) ->
  sonarCfAltCm e < sonarMaxAltWithTiltCm e ->
  sonarTransition e (sonarCfAltCm e) = F32.one
  /\ sonarTransition e (sonarMaxAltWithTiltCm e) = F32.zero.
Proof.
  unfold in_int16, sonarTransition. intros Hcf Hmax Hlt.
  change (2 ^ 15) with 32768 in *.
  rewrite Z.sub_diag.
  rewrite (int32_small (_ - _))
    by fits.
  rewrite (int32_small 0) by fits.
  apply band_ends. lia.
Qed.

Lemma sonarStage_in_range e baroAlt st :
  sensors_SONAR e = true -> sonarInRange e (sonarAltitude e) = true ->
  sonarStage e baroAlt st
  = set_estimatedAltitude st
      (sonarBlend (sonarAltitude e) baroAlt
         (sonarTransition e (sonarAltitude e))).
Proof. intros Hs Hr. unfold sonarStage. rewrite Hs, Hr. reflexivity. Qed.

Lemma sonarStage_out_of_range e baroAlt st :
  sonarInRange e (sonarAltitude e) = false -> sonarStage e baroAlt st = st.
Proof.
  intros Hr. unfold sonarStage. rewrite Hr.
  destruct (sensors_SONAR e); reflexivity.
Qed.

(** C9: on an accepted tick with the ranging sensor present and its
    reading positive and within [sonarCfAltCm, sonarMaxAltWithTiltCm], the
    ranging block sets the altitude estimate to the blend
    sonarAlt*t + baroAlt*(1-t) with
    t = (sonarMaxAltWithTiltCm - sonarAlt) / (sonarMaxAltWithTiltCm -
    sonarCfAltCm), overriding the value the barometer block left; t is 1.0
    when the reading equals the lower limit and 0.0 when it equals the
    upper limit; a reading outside the band leaves the estimate as the
    barometer block left it, the barometric altitude when the barometer is
    calibrated.  The arithmetic is that of line 242-243: single precision,
    the sum converted back to an integer.  Without accelerometer the
    altitude so set is the one the tick publishes, whenever the debug tap
    of line 268 does not divide by zero. *)
Theorem ranging_blend e st t :
  accepted st t -> sensors_SONAR e = true ->
  let baroCalibrated :=
    sensors_BARO e && isBaroCalibrationComplete (baro st) in
  let baroAlt :=
    if baroCalibrated then fst (baroCalculateAltitude (baro st)) else 0 in
  let afterBaro := snd (baroStage e (set_previousTimeUs st t)) in
  let sonarAlt := sonarAltitude e in
  let transition :=
    F32.div (F32.of_Z (int32 (sonarMaxAltWithTiltCm e - sonarAlt)))
      (F32.of_Z (int32 (sonarMaxAltWithTiltCm e - sonarCfAltCm e))) in
  fst (baroStage e (set_previousTimeUs st t)) = baroAlt
  /\ (0 < sonarAlt ->
      sonarCfAltCm e <= sonarAlt <= sonarMaxAltWithTiltCm e ->
      estimatedAltitude (sonarStage e baroAlt afterBaro)
      = F32.to_int32
          (F32.add (F32.mul (F32.of_Z sonarAlt) transition)
             (F32.mul (F32.of_Z baroAlt) (F32.sub F32.one transition))))
  /\ (in_int16 (sonarCfAltCm e) -> in_int16 (sonarMaxAltWithTiltCm e) ->
      sonarCfAltCm e < sonarMaxAltWithTiltCm e ->
      (sonarAlt = sonarCfAltCm e -> transition = F32.one)
      /\ (sonarAlt = sonarMaxAltWithTiltCm e -> transition = F32.zero))
  /\ (~ (0 < sonarAlt
         /\ sonarCfAltCm e <= sonarAlt <= sonarMaxAltWithTiltCm e) ->
      sonarStage e baroAlt afterBaro = afterBaro
      /\ (baroCalibrated = true -> estimatedAltitude afterBaro = baroAlt))
  /\ (sensors_ACC e = false -> tap_defined e st ->
      exists st',
        calculateEstimatedAltitude e st t = Ok st'
        /\ estimatedAltitude st'
           = estimatedAltitude (sonarStage e baroAlt afterBaro)).
Proof.
  intros Ha Hs baroCalibrated baroAlt afterBaro sonarAlt transition.
  assert (Hb : fst (baroStage e (set_previousTimeUs st t)) = baroAlt
               /\ (baroCalibrated = true ->
                   estimatedAltitude afterBaro = baroAlt)).
  { unfold afterBaro, baroStage, baroAlt, baroCalibrated.
    destruct (sensors_BARO e); [|split; [reflexivity|discriminate]]. simpl.
    destruct (isBaroCalibrationComplete (baro st));
      [|split; [reflexivity|discriminate]]. simpl.
    destruct (baroCalculateAltitude (baro st)). split; reflexivity. }
  destruct Hb as [Hb Hcal].
  split; [exact Hb|].
  split.
  { intros Hpos [Hlo Hhi].
    rewrite sonarStage_in_range; [reflexivity|exact Hs|].
    unfold sonarInRange. fold sonarAlt.
    apply Z.ltb_lt in Hpos. apply Z.leb_le in Hlo, Hhi.
    rewrite Hpos, Hlo, Hhi. reflexivity. }
  split.
  { intros Hcf Hmax Hlt.
    destruct (sonarTransition_ends e Hcf Hmax Hlt) as [H1 H0].
    split; intros Heq; unfold transition; rewrite Heq; assumption. }
  split.
  { intros Hout. split; [|exact Hcal].
    apply sonarStage_out_of_range. unfold sonarInRange. fold sonarAlt.
    destruct (Z.ltb_spec 0 sonarAlt); [|reflexivity].
    destruct (Z.leb_spec (sonarCfAltCm e) sonarAlt); [|reflexivity].
    destruct (Z.leb_spec sonarAlt (sonarMaxAltWithTiltCm e));
      [|reflexivity].
    exfalso. apply Hout. lia. }
  intros Hacc Ht.
  destruct (accepted_tick e st t Ha Ht) as [d Hd]. cbv zeta in Hd.
  eexists. split; [exact Hd|]. clear Hd.
  rewrite Hb. unfold accStage. rewrite Hacc. simpl fst. simpl snd.
  fold afterBaro.
  destruct (sensors_BARO e);
    [destruct (negb _)|];
    autorewrite with velocity_frame; reflexivity.
Qed.

End Properties.

(** * Concrete runs *)

(** A roll of exactly 80 degrees closes the gate. *)
Lemma thrust_gate_witness :
  let e := simEnvWith 1500 (mkAttitude 800 0 0) false false false 0 100 300
             false false false false 1 in
  let st := set_errorVelocityI (simStart 0 0) 4321 in
  800 <= Z.abs (roll (attitude e))
  /\ isThrustFacingDownwards (attitude e) = false
  /\ calculateAltHoldThrottleAdjustment e st 10 F32.zero F32.zero = (0, st).
Proof.
  intros e st. split; [vm_compute; discriminate|].
  apply (thrust_gate e st 10 F32.zero F32.zero).
  left. vm_compute. discriminate.
Defined.

(** The timer wrapped between the last accepted update (296 microseconds
    before the wrap) and the call (1000 microseconds after it). *)
Lemma rate_limit_noop_witness :
  let e := simSensors true true true 150 100 300 true in
  let st := set_previousTimeUs (simStart 0 1000) 4294967000 in
  uint32 (1000 - previousTimeUs st) = 1296
  /\ calculateEstimatedAltitude e st 1000 = Ok st.
Proof.
  intros e st. split; [reflexivity|].
  apply (rate_limit_noop e st 1000). vm_compute. reflexivity.
Defined.

(** Both holds requested with the estimate at 321 cm and the stick at
    1500. *)
Lemma hold_engagement_latches_once_witness :
  let e := simSticks 1500 false true true 1 in
  let st := set_estimatedAltitude (simStart 0 0) 321 in
  AltHold (updateAltHoldState e st) = 321
  /\ initialThrottleHold (updateAltHoldState e st) = 1500
  /\ repeat_calls updateAltHoldState [e; e; e] (updateAltHoldState e st)
     = updateAltHoldState e st
  /\ AltHold (updateSonarAltHoldState e st) = 321
  /\ repeat_calls updateSonarAltHoldState [e; e]
       (updateSonarAltHoldState e st)
     = updateSonarAltHoldState e st.
Proof.
  intros e st.
  destruct (hold_engagement_latches_once e st) as [Hb Hs].
  destruct Hb as [(Ha & Hi & _) [_ Hrep]];
    [reflexivity | vm_compute; discriminate | reflexivity |].
  destruct Hs as [(Ha' & _) [_ Hrep']];
    [reflexivity | vm_compute; discriminate | reflexivity |].
  split; [exact Ha|]. split; [exact Hi|].
  split; [apply Hrep; repeat constructor|].
  split; [exact Ha'|]. apply Hrep'. repeat constructor.
Defined.

(** One accepted tick from program start with a calibrated barometer
    reading 1000 cm. *)
Lemma integrator_always_bounded_witness :
  exists st',
    exec (simSensors true false false 0 100 300 false)
      (OpCalculateEstimatedAltitude 25000) (simStart 0 1000) = Ok st'
    /\ errorVelocityI st' = -8595
    /\ -1638400 <= errorVelocityI st' <= 1638400.
Proof.
  eexists. split; [vm_compute; reflexivity|].
  split; [reflexivity|].
  apply integrator_always_bounded.
  apply (reachable_exec (simSensors true false false 0 100 300 false)
           (OpCalculateEstimatedAltitude 25000) (simStart 0 1000)).
  - apply reachable_initial. repeat split.
  - vm_compute. reflexivity.
Defined.

(** The scenario of the specification: target 1000 cm, estimate 400 cm,
    altitude gain 50. *)
Lemma altitude_P_stage_witness :
  let e := simSticks 1500 false true false 0 in
  let st := set_estimatedAltitude (set_AltHold (simStart 0 0) 1000) 400 in
  velocityControl st = 0
  /\ altitudeSetVel e st = spec_targetVelocity 50 1000 400
  /\ altitudeSetVel e st = spec_clamp (Z.quot (50 * 490) 128) (-300) 300
  /\ altitudeSetVel e st = 191.
Proof.
  intros e st. split; [reflexivity|].
  destruct (altitude_P_stage e st) as (_ & Heq & Hex); [reflexivity|].
  split; [apply Heq; vm_compute; split; discriminate|].
  split; [|reflexivity].
  apply Hex; [vm_compute; split; discriminate|reflexivity|reflexivity].
Defined.

(** C1, refuted as stated: two accepted ticks with the barometer present
    and uncalibrated.  In the first the accelerometer is present and the
    estimate, 100 cm before the call, is overwritten by the zeroed altitude
    accumulator.  In the second the calibration completes during the cycle
    of this very call, the velocity stage runs and the vario, 50 cm/s
    before the call, is replaced. *)
Lemma calibration_tick_not_frozen :
  (let e := simSensors true false true 0 100 300 false in
   let st := set_estimatedAltitude (simStart 2 0) 100 in
   accepted st 25000 /\ sensors_BARO e = true
   /\ isBaroCalibrationComplete (baro st) = false
   /\ exists st',
        calculateEstimatedAltitude e st 25000 = Ok st'
        /\ estimatedAltitude st = 100 /\ estimatedAltitude st' = 0)
  /\ (let e := simSensors true false false 0 100 300 false in
      let st := set_estimatedVario (simStart 1 0) 50 in
      accepted st 25000 /\ sensors_BARO e = true
      /\ isBaroCalibrationComplete (baro st) = false
      /\ exists st',
           calculateEstimatedAltitude e st 25000 = Ok st'
           /\ estimatedVario st = 50 /\ estimatedVario st' = 0).
Proof.
  split; cbv zeta.
  - split; [vm_compute; discriminate|].
    split; [reflexivity|]. split; [reflexivity|].
    eexists. split; [vm_compute; reflexivity|]. split; reflexivity.
  - split; [vm_compute; discriminate|].
    split; [reflexivity|]. split; [reflexivity|].
    eexists. split; [vm_compute; reflexivity|]. split; reflexivity.
Qed.

(** The amended statement at the first of these inputs, and at an input
    with an in-band ranging reading of 150 cm and no accelerometer. *)
Lemma calibration_tick_witness :
  (let e := simSensors true false true 0 100 300 false in
   let st := set_estimatedAltitude (simStart 2 0) 100 in
   exists st',
     calculateEstimatedAltitude e st 25000 = Ok st'
     /\ calibratingB (baro st') = 1%nat
     /\ estimatedVario st' = estimatedVario st
     /\ estimatedAltitude st' = F32.to_int32 (accAlt st'))
  /\ (let e := simSensors true true false 150 100 300 false in
      let st := set_estimatedAltitude (simStart 2 0) 100 in
      exists st',
        calculateEstimatedAltitude e st 25000 = Ok st'
        /\ vel st' = F32.zero /\ accAlt st' = F32.zero
        /\ estimatedAltitude st' = 112).
Proof.
  split; cbv zeta.
  - destruct (calibration_tick
                (simSensors true false true 0 100 300 false)
                (set_estimatedAltitude (simStart 2 0) 100) 25000)
      as (st' & Hrun & Hbaro & _ & Hstill & _ & _ & Hacc).
    + vm_compute. discriminate.
    + reflexivity.
    + reflexivity.
    + left. reflexivity.
    + exists st'. split; [exact Hrun|].
      split; [rewrite Hbaro; reflexivity|].
      split; [apply Hstill; reflexivity|].
      apply Hacc. reflexivity.
  - destruct (calibration_tick
                (simSensors true true false 150 100 300 false)
                (set_estimatedAltitude (simStart 2 0) 100) 25000)
      as (st' & Hrun & _ & _ & Hstill & _ & Hblend & _).
    + vm_compute. discriminate.
    + reflexivity.
    + reflexivity.
    + left. reflexivity.
    + exists st'. split; [exact Hrun|].
      destruct Hstill as (_ & _ & Hzero); [reflexivity|].
      destruct Hzero as [Hv Ha]; [reflexivity|].
      split; [exact Hv|]. split; [exact Ha|].
      rewrite Hblend by reflexivity. vm_compute. reflexivity.
Defined.

(** C2, refuted as stated, on a platform with the command range
    1000..2000.  Rotary wing, fast-change mode, hold engaged at throttle
    1400, stick now at 1500 (100 beyond, deadband 40) and an incoming
    throttle command of 1020: the command leaves as 980.  Fixed wing,
    incoming pitch command 0 and adjustment 25: the pitch command leaves
    as 25. *)
Lemma command_not_clamped :
  (let e := simSticks 1500 false true false 1 in
   let st := simHeld (fun c => match c with THROTTLE => 1020 | _ => 0 end) in
   PWM_RANGE_MIN e = 1000
   /\ rcCommand (applyAltHold e st) THROTTLE = 980
   /\ ~ (PWM_RANGE_MIN e <= rcCommand (applyAltHold e st) THROTTLE
         <= PWM_RANGE_MAX e))
  /\ (let e := simSticks 1500 true true false 1 in
      let st := simHeld (fun _ => 0) in
      rcCommand (applyAltHold e st) PITCH = 25
      /\ ~ (PWM_RANGE_MIN e <= rcCommand (applyAltHold e st) PITCH
            <= PWM_RANGE_MAX e)).
Proof.
  split; cbv zeta.
  - split; [reflexivity|]. split; [reflexivity|].
    vm_compute. intros [Hlo _]. apply Hlo. reflexivity.
  - split; [reflexivity|].
    vm_compute. intros [Hlo _]. apply Hlo. reflexivity.
Qed.

(** The amended statement on the same platform: the clamped paths (slow
    mode; fast mode with the stick at the engage-time position) and the
    two unclamped ones. *)
Lemma command_adjustment_witness :
  (let e := simSticks 1500 false true false 0 in
   let st := simHeld (fun c => match c with THROTTLE => 1020 | _ => 0 end) in
   rcCommand (applyAltHold e st) THROTTLE = 1425)
  /\ (let e := simSticks 1400 false true false 1 in
      let st := set_altHoldThrottleAdjustment (simHeld (fun _ => 0)) (-650) in
      rcCommand (applyAltHold e st) THROTTLE = 1000)
  /\ (let e := simSticks 1500 false true false 1 in
      let st :=
        simHeld (fun c => match c with THROTTLE => 1020 | _ => 0 end) in
      rcCommand (applyAltHold e st) THROTTLE = int16 (1020 + - 40))
  /\ (let e := simSticks 1500 true true false 1 in
      let st := simHeld (fun _ => 0) in
      rcCommand (applyAltHold e st) PITCH = int16 (0 + int32 (25 * 1))).
Proof.
  assert (Hrange : forall throttle fw fast,
             in_int16 (PWM_RANGE_MIN (simSticks throttle fw true false fast))
             /\ in_int16
                  (PWM_RANGE_MAX (simSticks throttle fw true false fast))
             /\ PWM_RANGE_MIN (simSticks throttle fw true false fast)
                <= PWM_RANGE_MAX (simSticks throttle fw true false fast)).
  { intros. vm_compute. repeat split; discriminate. }
  split; [|split; [|split]]; cbv zeta.
  - destruct (Hrange 1500 false 0) as (H1 & H2 & H3).
    destruct (command_adjustment
                (simSticks 1500 false true false 0)
                (simHeld (fun c => match c with THROTTLE => 1020 | _ => 0 end))
                H1 H2 H3) as [Hrotary _].
    destruct Hrotary as [Hclamped _]; [reflexivity|].
    destruct Hclamped as [Heq _]; [left; reflexivity|].
    rewrite Heq. reflexivity.
  - destruct (Hrange 1400 false 1) as (H1 & H2 & H3).
    destruct (command_adjustment
                (simSticks 1400 false true false 1)
                (set_altHoldThrottleAdjustment (simHeld (fun _ => 0)) (-650))
                H1 H2 H3) as [Hrotary _].
    destruct Hrotary as [Hclamped _]; [reflexivity|].
    destruct Hclamped as [Heq _]; [right; vm_compute; discriminate|].
    rewrite Heq. reflexivity.
  - destruct (Hrange 1500 false 1) as (H1 & H2 & H3).
    destruct (command_adjustment
                (simSticks 1500 false true false 1)
                (simHeld (fun c => match c with THROTTLE => 1020 | _ => 0 end))
                H1 H2 H3) as [Hrotary _].
    destruct Hrotary as [_ Hbiased]; [reflexivity|].
    rewrite Hbiased; [reflexivity | vm_compute; discriminate
                     | vm_compute; reflexivity].
  - destruct (Hrange 1500 true 1) as (H1 & H2 & H3).
    destruct (command_adjustment
                (simSticks 1500 true true false 1)
                (simHeld (fun _ => 0)) H1 H2 H3) as [_ Hfixed].
    destruct Hfixed as [Heq _]; [reflexivity|].
    rewrite Heq. reflexivity.
Defined.

(** C3 at a failing input: altitude debug mode selected, accelerometer
    present, no sample accumulated since the last reset. *)
Lemma debug_tap_zero_count_witness :
  let e := simSensors false false true 0 100 300 true in
  let st := simStart 0 0 in
  accSumCount st = 0
  /\ meanAccZ st = F32.zero
  /\ calculateEstimatedAltitude e st 25000 = DivisionByZero.
Proof.
  intros e st. split; [reflexivity|].
  apply (debug_tap_zero_count e st 25000).
  - vm_compute. discriminate.
  - reflexivity.
  - reflexivity.
Defined.

(** Calibrated barometer reading 1000 cm, ranging readings inside, at the
    ends of and outside the band 100..300 cm, no accelerometer:
    t = 150/200 gives 150*0.75 + 1000*0.25 = 362.5, published as 362. *)
Lemma ranging_blend_witness :
  let st := simStart 0 1000 in
  (exists st',
     calculateEstimatedAltitude
       (simSensors true true false 150 100 300 false) st 25000 = Ok st'
     /\ estimatedAltitude st' = 362)
  /\ sonarTransition (simSensors true true false 100 100 300 false) 100
     = F32.one
  /\ sonarTransition (simSensors true true false 300 100 300 false) 300
     = F32.zero
  /\ estimatedAltitude
       (sonarStage (simSensors true true false 301 100 300 false) 1000
          (snd (baroStage (simSensors true true false 301 100 300 false)
                  (set_previousTimeUs st 25000))))
     = 1000.
Proof.
  intros st.
  assert (Hacc : accepted st 25000) by (vm_compute; discriminate).
  split; [|split; [|split]].
  - destruct (ranging_blend (simSensors true true false 150 100 300 false)
                st 25000 Hacc eq_refl)
      as (_ & Hin & _ & _ & Hpub).
    destruct Hpub as (st' & Hrun & Hest);
      [reflexivity | left; reflexivity |].
    exists st'. split; [exact Hrun|].
    rewrite Hest, Hin;
      [vm_compute; reflexivity | reflexivity
      | vm_compute; split; discriminate].
  - destruct (ranging_blend (simSensors true true false 100 100 300 false)
                st 25000 Hacc eq_refl)
      as (_ & _ & Hends & _).
    destruct Hends as [Hlow _];
      [vm_compute; split; discriminate | vm_compute; split; discriminate
      | reflexivity |].
    apply Hlow. reflexivity.
  - destruct (ranging_blend (simSensors true true false 300 100 300 false)
                st 25000 Hacc eq_refl)
      as (_ & _ & Hends & _).
    destruct Hends as [_ Hhigh];
      [vm_compute; split; discriminate | vm_compute; split; discriminate
      | reflexivity |].
    apply Hhigh. reflexivity.
  - destruct (ranging_blend (simSensors true true false 301 100 300 false)
                st 25000 Hacc eq_refl)
      as (_ & _ & _ & Hout & _).
    destruct Hout as [Hid Hbaro].
    + vm_compute. intros (_ & _ & Hhi). apply Hhi. reflexivity.
    + exact (eq_trans (f_equal estimatedAltitude Hid) (Hbaro eq_refl)).
Defined.

(** * Further properties of the code *)

(** ** Mode flags *)

Lemma land_disable_self f m : Z.land (Z.land f (Z.lnot m)) m = 0.
Proof.
  rewrite <- Z.land_assoc, (Z.land_comm (Z.lnot m) m), Z.land_lnot_diag.
  apply Z.land_0_r.
Qed.

Lemma land_disable_other f m m' :
  Z.land m m' = 0 -> Z.land (Z.land f (Z.lnot m)) m' = Z.land f m'.
Proof.
  intros Hd. apply Z.bits_inj'. intros n Hn.
  rewrite !Z.land_spec, Z.lnot_spec by exact Hn.
  assert (Hb : Z.testbit m n && Z.testbit m' n = false).
  { rewrite <- Z.land_spec, Hd. apply Z.bits_0. }
  destruct (Z.testbit f n), (Z.testbit m n), (Z.testbit m' n);
    simpl in *; congruence.
Qed.

Lemma land_enable_other f m m' :
  Z.land m m' = 0 -> Z.land (Z.lor f m) m' = Z.land f m'.
Proof.
  intros Hd. rewrite Z.land_lor_distr_l, Hd. apply Z.lor_0_r.
Qed.

Section MoreProperties.

Context {B : Type} {baroDriver : BaroDriver B}.

Implicit Types (e : env) (st : state B).

Lemma FLIGHT_MODE_disable_self st m :
  FLIGHT_MODE (DISABLE_FLIGHT_MODE st m) m = false.
Proof.
  unfold FLIGHT_MODE, DISABLE_FLIGHT_MODE. simpl.
  rewrite land_disable_self. reflexivity.
Qed.

Lemma FLIGHT_MODE_disable_other st m m' :
  Z.land m m' = 0 ->
  FLIGHT_MODE (DISABLE_FLIGHT_MODE st m) m' = FLIGHT_MODE st m'.
Proof.
  intros Hd. unfold FLIGHT_MODE, DISABLE_FLIGHT_MODE. simpl.
  rewrite land_disable_other by exact Hd. reflexivity.
Qed.

Lemma FLIGHT_MODE_enable_other st m m' :
  Z.land m m' = 0 ->
  FLIGHT_MODE (ENABLE_FLIGHT_MODE st m) m' = FLIGHT_MODE st m'.
Proof.
  intros Hd. unfold FLIGHT_MODE, ENABLE_FLIGHT_MODE. simpl.
  rewrite land_enable_other by exact Hd. reflexivity.
Qed.

(** ** Hold disengagement and the interplay of the two machines *)

(** X1: a hold state machine called with its request inactive clears its
    own mode flag, keeps the flag of every mode whose mask is disjoint
    from its own, and changes no object of altitude.c (target, integrator,
    adjustment, engage-time throttle, estimate) nor any command. *)
Theorem hold_disengage e st :
  (rcMode_BOXBARO e = false ->
   FLIGHT_MODE (updateAltHoldState e st) (BARO_MODE e) = false
   /\ (forall m, Z.land (BARO_MODE e) m = 0 ->
                 FLIGHT_MODE (updateAltHoldState e st) m = FLIGHT_MODE st m)
   /\ same_core st (updateAltHoldState e st)
   /\ rcCommand (updateAltHoldState e st) = rcCommand st)
  /\ (rcMode_BOXSONAR e = false ->
      FLIGHT_MODE (updateSonarAltHoldState e st) (SONAR_MODE e) = false
      /\ (forall m, Z.land (SONAR_MODE e) m = 0 ->
                    FLIGHT_MODE (updateSonarAltHoldState e st) m
                    = FLIGHT_MODE st m)
      /\ same_core st (updateSonarAltHoldState e st)
      /\ rcCommand (updateSonarAltHoldState e st) = rcCommand st).
Proof.
  split; intros Hoff.
  - unfold updateAltHoldState. rewrite Hoff. simpl.
    split; [apply FLIGHT_MODE_disable_self|].
    split; [intros m Hd; apply FLIGHT_MODE_disable_other; exact Hd|].
    split; [repeat split|reflexivity].
  - unfold updateSonarAltHoldState. rewrite Hoff. simpl.
    split; [apply FLIGHT_MODE_disable_self|].
    split; [intros m Hd; apply FLIGHT_MODE_disable_other; exact Hd|].
    split; [repeat split|reflexivity].
Qed.


(** X3: the two machines share one target.  Engaging the ranging hold
    while the barometer hold is engaged latches the target, the
    engage-time throttle, the integrator and the adjustment anew, and the
    barometer hold stays engaged (the masks being disjoint); symmetrically
    for the barometer hold engaged second. *)
Theorem second_engagement_relatches e st :
  Z.land (SONAR_MODE e) (BARO_MODE e) = 0 ->
  (rcMode_BOXSONAR e = true -> FLIGHT_MODE st (SONAR_MODE e) = false ->
   FLIGHT_MODE st (BARO_MODE e) = true ->
   latched e st (updateSonarAltHoldState e st)
   /\ FLIGHT_MODE (updateSonarAltHoldState e st) (BARO_MODE e) = true)
  /\ (rcMode_BOXBARO e = true -> FLIGHT_MODE st (BARO_MODE e) = false ->
      FLIGHT_MODE st (SONAR_MODE e) = true ->
      latched e st (updateAltHoldState e st)
      /\ FLIGHT_MODE (updateAltHoldState e st) (SONAR_MODE e) = true).
Proof.
  intros Hd. split; intros Hrc Hoff Hother.
  - unfold updateSonarAltHoldState. rewrite Hrc, Hoff. simpl.
    split; [repeat split|].
    rewrite <- Hother. unfold FLIGHT_MODE. simpl.
    rewrite land_enable_other by exact Hd. reflexivity.
  - unfold updateAltHoldState. rewrite Hrc, Hoff. simpl.
    split; [repeat split|].
    rewrite <- Hother. unfold FLIGHT_MODE. simpl.
    rewrite land_enable_other by (rewrite Z.land_comm; exact Hd).
    reflexivity.
Qed.

(** X4: engagement is bumpless on a rotary-wing vehicle.  When the hold is
    engaged and the output stage runs with the stick where it was at
    engagement, the throttle command is the stick value itself, provided
    the stick is within the command range; this holds in fast and in slow
    mode and whatever the adjustment, target and flags were before. *)
Theorem engagement_is_bumpless e st :
  rcMode_BOXBARO e = true -> FLIGHT_MODE st (BARO_MODE e) = false ->
  STATE_FIXED_WING e = false ->
  0 <= alt_hold_deadband e ->
  in_int16 (rcData e THROTTLE) ->
  PWM_RANGE_MIN e <= rcData e THROTTLE <= PWM_RANGE_MAX e ->
  rcCommand (applyAltHold e (updateAltHoldState e st)) THROTTLE
  = rcData e THROTTLE.
Proof.
  intros Hrc Hf Hfw Hdb H16 Hrange.
  unfold applyAltHold, updateAltHoldState. rewrite Hfw, Hrc, Hf. simpl.
  unfold applyMultirotorAltHold. simpl.
  rewrite Z.sub_diag, (int32_small 0) by fits.
  change (ABS 0) with 0.
  assert (Hnd : (alt_hold_deadband e <? 0) = false) by (apply Z.ltb_ge; lia).
  rewrite Hnd.
  split_branches; simpl;
    rewrite Z.add_0_r, int32_small, constrain_inside, int16_small
      by (assumption || fits);
    reflexivity.
Qed.

(** ** The output stage *)

(** X5: in slow mode a stick excursion beyond the deadband puts the
    controller in velocity-control mode with a target velocity of half the
    excursion (truncated toward zero, so of the excursion's sign), which
    the outer stage then passes on unchanged, bypassing the altitude P
    stage; the target altitude and the integrator are left alone. *)
Theorem slow_mode_excursion e st :
  STATE_FIXED_WING e = false -> alt_hold_fast_change e = 0 ->
  in_int16 (rcData e THROTTLE) -> in_int16 (initialThrottleHold st) ->
  alt_hold_deadband e < Z.abs (rcData e THROTTLE - initialThrottleHold st) ->
  let st' := applyAltHold e st in
  velocityControl st' = 1
  /\ setVelocity st'
     = Z.quot (rcData e THROTTLE - initialThrottleHold st) 2
  /\ altitudeSetVel e st' = setVelocity st'
  /\ isAltHoldChanged st' = 1
  /\ AltHold st' = AltHold st
  /\ errorVelocityI st' = errorVelocityI st.
Proof.
  intros Hfw Hslow Hrc Hinit Hdev st'. subst st'.
  unfold applyAltHold, applyMultirotorAltHold. rewrite Hfw, Hslow. simpl.
  rewrite int32_small by fits. rewrite ABS_abs.
  apply Z.ltb_lt in Hdev. rewrite Hdev. simpl.
  unfold altitudeSetVel. simpl. repeat split.
Qed.

(** X6: in fast mode a stick excursion beyond the deadband zeroes the
    integrator and marks the hold as changed; it does not touch the target
    altitude, the velocity-control flag or the target velocity. *)
Theorem fast_mode_excursion e st :
  STATE_FIXED_WING e = false -> alt_hold_fast_change e <> 0 ->
  alt_hold_deadband e
  < ABS (int32 (rcData e THROTTLE - initialThrottleHold st)) ->
  let st' := applyAltHold e st in
  errorVelocityI st' = 0
  /\ isAltHoldChanged st' = 1
  /\ AltHold st' = AltHold st
  /\ velocityControl st' = velocityControl st
  /\ setVelocity st' = setVelocity st.
Proof.
  intros Hfw Hfast Hdev st'. subst st'.
  unfold applyAltHold, applyMultirotorAltHold. rewrite Hfw.
  apply Z.eqb_neq in Hfast. rewrite Hfast.
  apply Z.ltb_lt in Hdev. rewrite Hdev. simpl. repeat split.
Qed.

(** X7: with the stick within the deadband the output stage re-latches
    the target altitude to the current estimate exactly when an excursion
    was marked, and clears the mark; slow mode then also leaves
    velocity-control mode, fast mode leaves that flag as it is.  Without a
    marked excursion the target and the flags are unchanged.  The
    integrator and the target velocity are unchanged in every case. *)
Theorem stick_return e st :
  STATE_FIXED_WING e = false ->
  ABS (int32 (rcData e THROTTLE - initialThrottleHold st))
  <= alt_hold_deadband e ->
  let st' := applyAltHold e st in
  (isAltHoldChanged st <> 0 ->
   AltHold st' = estimatedAltitude st
   /\ (alt_hold_fast_change e = 0 -> velocityControl st' = 0)
   /\ (alt_hold_fast_change e <> 0 ->
       velocityControl st' = velocityControl st))
  /\ (isAltHoldChanged st = 0 ->
      AltHold st' = AltHold st
      /\ velocityControl st' = velocityControl st)
  /\ isAltHoldChanged st' = 0
  /\ errorVelocityI st' = errorVelocityI st
  /\ setVelocity st' = setVelocity st.
Proof.
  intros Hfw Hdev st'. subst st'.
  unfold applyAltHold, applyMultirotorAltHold. rewrite Hfw.
  apply Z.ltb_ge in Hdev. rewrite Hdev.
  destruct (Z.eqb_spec (alt_hold_fast_change e) 0) as [Hs|Hf];
    destruct (Z.eqb_spec (isAltHoldChanged st) 0) as [Hc|Hc]; simpl;
    repeat split; intros; try reflexivity; try contradiction;
    try assumption.
Qed.

(** X8: an excursion followed by the stick's return re-latches the target
    to the estimate, in both modes: after the two calls the target is the
    current estimate and the mark is clear. *)
Theorem excursion_then_return e_out e_back st :
  STATE_FIXED_WING e_out = false -> STATE_FIXED_WING e_back = false ->
  alt_hold_deadband e_out
  < ABS (int32 (rcData e_out THROTTLE - initialThrottleHold st)) ->
  ABS (int32 (rcData e_back THROTTLE - initialThrottleHold st))
  <= alt_hold_deadband e_back ->
  let st' := applyAltHold e_back (applyAltHold e_out st) in
  AltHold st' = estimatedAltitude st
  /\ isAltHoldChanged st' = 0
  /\ initialThrottleHold st' = initialThrottleHold st.
Proof.
  intros Hfw1 Hfw2 Hout Hback st'. subst st'.
  set (st1 := applyAltHold e_out st).
  assert (H1 : isAltHoldChanged st1 = 1
               /\ initialThrottleHold st1 = initialThrottleHold st
               /\ estimatedAltitude st1 = estimatedAltitude st).
  { subst st1. unfold applyAltHold, applyMultirotorAltHold. rewrite Hfw1.
    apply Z.ltb_lt in Hout. rewrite Hout.
    destruct (negb (alt_hold_fast_change e_out =? 0)); simpl;
      repeat split. }
  destruct H1 as (Hc & Hi & He).
  unfold applyAltHold, applyMultirotorAltHold. rewrite Hfw2, Hi, Hc.
  apply Z.ltb_ge in Hback. rewrite Hback.
  destruct (negb (alt_hold_fast_change e_back =? 0)); simpl;
    rewrite ?He, ?Hi; repeat split.
Qed.

(** X9: the output stage writes commands and controller state only.  It
    never changes the estimate, the vario, the fusion state, the
    accumulators, the debug slots or the driver state, nor the published
    adjustment, the engage-time throttle or the mode flags; on a rotary
    wing only the throttle command changes, on a fixed wing only the pitch
    command and no object of altitude.c at all. *)
Theorem applyAltHold_frame e st :
  let st' := applyAltHold e st in
  estimate_frame st st'
  /\ altHoldThrottleAdjustment st' = altHoldThrottleAdjustment st
  /\ initialThrottleHold st' = initialThrottleHold st
  /\ flightModeFlags st' = flightModeFlags st
  /\ (STATE_FIXED_WING e = false ->
      forall c, c <> THROTTLE -> rcCommand st' c = rcCommand st c)
  /\ (STATE_FIXED_WING e = true ->
      same_core st st'
      /\ forall c, c <> PITCH -> rcCommand st' c = rcCommand st c).
Proof.
  intros st'. subst st'.
  unfold applyAltHold, applyFixedWingAltHold, applyMultirotorAltHold,
    estimate_frame, same_core.
  split_branches; simpl;
    repeat match goal with
           | |- _ /\ _ => split
           | |- _ -> _ => intro
           end;
    try reflexivity; try discriminate;
    match goal with
    | Hc : ?c <> _ |- _ => destruct c; simpl; try reflexivity; contradiction
    end.
Qed.

(** X10: on a fixed-wing vehicle the pitch command moves by the adjustment,
    upward in the normal configuration and downward in the reversed one,
    and an adjustment of 0 leaves it where it was (values within the 16-bit
    command word). *)
Theorem fixed_wing_pitch e st :
  STATE_FIXED_WING e = true ->
  in_int16 (rcCommand st PITCH) ->
  -650 <= altHoldThrottleAdjustment st <= 650 ->
  in_int16 (rcCommand st PITCH + altHoldThrottleAdjustment st) ->
  in_int16 (rcCommand st PITCH - altHoldThrottleAdjustment st) ->
  rcCommand (applyAltHold e st) PITCH
  = (if fixedwing_althold_reversed e
     then rcCommand st PITCH - altHoldThrottleAdjustment st
     else rcCommand st PITCH + altHoldThrottleAdjustment st)
  /\ (altHoldThrottleAdjustment st = 0 ->
      rcCommand (applyAltHold e st) PITCH = rcCommand st PITCH).
Proof.
  intros Hfw Hp Hadj Hplus Hminus.
  unfold applyAltHold, applyFixedWingAltHold. rewrite Hfw. simpl.
  assert (Heq : int16
                  (rcCommand st PITCH
                   + int32 (altHoldThrottleAdjustment st
                            * GET_DIRECTION (fixedwing_althold_reversed e)))
                = if fixedwing_althold_reversed e
                  then rcCommand st PITCH - altHoldThrottleAdjustment st
                  else rcCommand st PITCH + altHoldThrottleAdjustment st).
  { unfold GET_DIRECTION. destruct (fixedwing_althold_reversed e).
    - rewrite int32_small by fits.
      replace (rcCommand st PITCH + altHoldThrottleAdjustment st * -1)
        with (rcCommand st PITCH - altHoldThrottleAdjustment st) by lia.
      apply int16_small. exact Hminus.
    - rewrite Z.mul_1_r, int32_small by fits.
      apply int16_small. exact Hplus. }
  split; [exact Heq|].
  intros H0. change (rc_store (rcCommand st) PITCH ?v PITCH) with v.
  rewrite Heq, H0.
  destruct (fixedwing_althold_reversed e); lia.
Qed.

(** ** The estimator's blocks *)

Lemma sensor_frame_refl st : sensor_frame st st.
Proof. unfold sensor_frame, hold_frame. repeat split. Qed.

Lemma sensor_frame_trans st1 st2 st3 :
  sensor_frame st1 st2 -> sensor_frame st2 st3 -> sensor_frame st1 st3.
Proof.
  unfold sensor_frame, hold_frame. intros H12 H23.
  repeat match goal with H : _ /\ _ |- _ => destruct H end.
  repeat split; congruence.
Qed.

Lemma baroStage_frame e st : sensor_frame st (snd (baroStage e st)).
Proof.
  unfold baroStage. split_branches; simpl; unfold sensor_frame, hold_frame;
    simpl; repeat split.
Qed.

Lemma sonarStage_frame e baroAlt st :
  sensor_frame st (sonarStage e baroAlt st).
Proof.
  unfold sonarStage. split_branches; simpl; unfold sensor_frame, hold_frame;
    simpl; repeat split.
Qed.

Lemma accStage_frame e baroAlt st :
  sensor_frame st (snd (accStage e baroAlt st)).
Proof.
  unfold accStage. split_branches; simpl; unfold sensor_frame, hold_frame;
    simpl; repeat split.
Qed.

Lemma debugTaps_frame e st st' :
  debugTaps e st = Ok st' -> sensor_frame st st'.
Proof.
  unfold debugTaps, DEBUG_SET, idiv.
  destruct (debugMode_ALTITUDE e).
  - destruct (accSumCount st =? 0); simpl; [discriminate|].
    intros Heq. injection Heq as <-.
    unfold sensor_frame, hold_frame. simpl. repeat split.
  - simpl. intros Heq. injection Heq as <-. apply sensor_frame_refl.
Qed.

Lemma velocityStage_hold_frame e st baroVel accZ_tmp :
  hold_frame st (velocityStage e st baroVel accZ_tmp).
Proof.
  unfold velocityStage, calculateAltHoldThrottleAdjustment, hold_frame.
  destruct (isThrustFacingDownwards (attitude e)); simpl; repeat split.
Qed.

Lemma adjustment_bounds e st vel_tmp accZ_tmp accZ_old :
  -650 <= fst (calculateAltHoldThrottleAdjustment e st vel_tmp accZ_tmp
                 accZ_old) <= 650.
Proof.
  destruct (isThrustFacingDownwards (attitude e)) eqn:Ht.
  - rewrite adjustment_sum by exact Ht. cbv zeta. simpl fst.
    set (error := int32 (altitudeSetVel e st - vel_tmp)).
    pose proof (velocityP_bounds e error).
    pose proof (quot_8192_bounds _ (velocityI_bounds e st error)).
    pose proof (velocityD_bounds e accZ_tmp accZ_old).
    lia.
  - unfold calculateAltHoldThrottleAdjustment. rewrite Ht. simpl. lia.
Qed.

Lemma velocityStage_adjustment e st baroVel accZ_tmp :
  adjustment_bounded (velocityStage e st baroVel accZ_tmp).
Proof.
  unfold adjustment_bounded, velocityStage.
  pose proof (adjustment_bounds e
                (set_estimatedVario
                   (set_vel st
                      (F32.add (F32.mul (vel st) (baro_cf_vel e))
                         (F32.mul (F32.of_Z baroVel)
                            (F32.sub F32.one (baro_cf_vel e)))))
                   (applyDeadband
                      (F32.lrintf
                         (F32.add (F32.mul (vel st) (baro_cf_vel e))
                            (F32.mul (F32.of_Z baroVel)
                               (F32.sub F32.one (baro_cf_vel e))))) 5))
                (F32.lrintf
                   (F32.add (F32.mul (vel st) (baro_cf_vel e))
                      (F32.mul (F32.of_Z baroVel)
                         (F32.sub F32.one (baro_cf_vel e)))))
                accZ_tmp (accZ_old st)) as Hb.
  simpl in *.
  destruct (calculateAltHoldThrottleAdjustment _ _ _ _ _) as [adj s].
  simpl in *. exact Hb.
Qed.

(** Every call of the estimator either returns the state it was given, or
    runs the sensor blocks and then stops or runs the velocity stage. *)
Lemma tick_shape e st t st' :
  calculateEstimatedAltitude e st t = Ok st' ->
  st' = st
  \/ exists s baroVel accZ_tmp,
       sensor_frame st s
       /\ (st' = s \/ st' = velocityStage e s baroVel accZ_tmp).
Proof.
  unfold calculateEstimatedAltitude. intros Heq.
  destruct (_ <? BARO_UPDATE_FREQUENCY_40HZ).
  { left. injection Heq as <-. reflexivity. }
  right.
  set (s0 := set_previousTimeUs st t) in *.
  assert (H0 : sensor_frame st s0).
  { unfold s0, sensor_frame, hold_frame. simpl. repeat split. }
  pose proof (baroStage_frame e s0) as H1.
  destruct (baroStage e s0) as [baroAlt s1]. simpl in H1.
  pose proof (sonarStage_frame e baroAlt s1) as H2.
  pose proof (accStage_frame e baroAlt (sonarStage e baroAlt s1)) as H3.
  destruct (accStage e baroAlt (sonarStage e baroAlt s1)) as [accZ_tmp s3].
  simpl in H3.
  destruct (debugTaps e s3) as [s4|] eqn:H4; [|discriminate].
  apply debugTaps_frame in H4. simpl in Heq.
  assert (H5 : sensor_frame st (imuResetAccelerationSum s4)).
  { apply sensor_frame_trans with (st2 := s4).
    - repeat (eapply sensor_frame_trans; [|eassumption]). exact H0.
    - unfold sensor_frame, hold_frame. simpl. repeat split. }
  destruct (sensors_BARO e).
  - destruct (negb _); injection Heq as <-.
    + eexists _, 0, accZ_tmp. split; [exact H5|]. left. reflexivity.
    + eexists (set_lastBaroAlt (imuResetAccelerationSum s4) baroAlt), _, _.
      split; [|right; reflexivity].
      eapply sensor_frame_trans; [exact H5|].
      unfold sensor_frame, hold_frame. simpl. repeat split.
  - injection Heq as <-. eexists _, 0, accZ_tmp.
    split; [exact H5|]. right. reflexivity.
Qed.

(** X11: the estimator never writes what belongs to the controller's
    output stage and to the hold state machines: the target altitude, the
    target velocity and its flag, the engage-time throttle, the excursion
    mark, the command channels and the mode flags are the same after every
    call that returns. *)
Theorem estimator_frame e st t st' :
  calculateEstimatedAltitude e st t = Ok st' -> hold_frame st st'.
Proof.
  intros Heq.
  destruct (tick_shape e st t st' Heq)
    as [->|(s & bv & a & Hs & [->| ->])].
  - apply sensor_frame_refl.
  - apply Hs.
  - destruct Hs as [Hh _].
    pose proof (velocityStage_hold_frame e s bv a) as Hv.
    unfold hold_frame in *.
    repeat match goal with H : _ /\ _ |- _ => destruct H end.
    repeat split; congruence.
Qed.

(** X12: whoever calls what with whatever inputs, the published throttle
    adjustment stays within -650 .. 650 and the two flags of the
    controller hold 0 or 1, in every state the core can reach from program
    start. *)
Theorem reachable_adjustment_and_flags st :
  reachable st -> adjustment_bounded st /\ flags_boolean st.
Proof.
  intros Hr.
  induction Hr as [st Hi | e o st st' _ [IHa IHf] Hx | st st' _ [IHa IHf] Hs].
  - destruct Hi as (_ & Hv & _ & Ha & _ & _ & _ & _ & Hc & _).
    unfold adjustment_bounded, flags_boolean.
    rewrite Ha, Hv, Hc. split; [lia|auto].
  - unfold adjustment_bounded, flags_boolean in *.
    destruct o; simpl in Hx.
    + injection Hx as <-.
      unfold applyAltHold, applyFixedWingAltHold, applyMultirotorAltHold.
      split_branches; simpl; lia.
    + injection Hx as <-. unfold updateAltHoldState.
      split_branches; simpl; lia.
    + injection Hx as <-. unfold updateSonarAltHoldState.
      split_branches; simpl; lia.
    + destruct (tick_shape e st currentTimeUs st' Hx)
        as [->|(s & bv & a & Hs & [->| ->])]; [auto| |].
      * destruct Hs as ((_ & _ & Hv & _ & Hc & _) & _ & Ha & _).
        rewrite Ha, Hv, Hc. auto.
      * split; [apply velocityStage_adjustment|].
        destruct Hs as ((_ & _ & Hv & _ & Hc & _) & _).
        destruct (velocityStage_hold_frame e s bv a)
          as (_ & _ & Hv' & _ & Hc' & _).
        rewrite Hv', Hc', Hv, Hc. exact IHf.
  - destruct Hs as (_ & Hv & _ & Ha & _ & _ & _ & _ & Hc & _).
    unfold adjustment_bounded, flags_boolean in *.
    rewrite Ha, Hv, Hc. auto.
Qed.

(** ** Accepted ticks, as a whole *)

Lemma velocityStage_bookkeeping e st baroVel accZ_tmp :
  previousTimeUs (velocityStage e st baroVel accZ_tmp) = previousTimeUs st
  /\ accSum (velocityStage e st baroVel accZ_tmp) = accSum st
  /\ accSumCount (velocityStage e st baroVel accZ_tmp) = accSumCount st
  /\ accTimeSum (velocityStage e st baroVel accZ_tmp) = accTimeSum st.
Proof.
  unfold velocityStage, calculateAltHoldThrottleAdjustment.
  destruct (isThrustFacingDownwards (attitude e)); simpl; repeat split.
Qed.

Lemma velocityStage_outputs e st baroVel accZ_tmp :
  estimatedVario (velocityStage e st baroVel accZ_tmp)
  = applyDeadband (F32.lrintf (vel (velocityStage e st baroVel accZ_tmp))) 5
  /\ accZ_old (velocityStage e st baroVel accZ_tmp) = accZ_tmp.
Proof.
  unfold velocityStage, calculateAltHoldThrottleAdjustment.
  destruct (isThrustFacingDownwards (attitude e)); simpl; repeat split.
Qed.

Lemma baroStage_previousTimeUs e st :
  previousTimeUs (snd (baroStage e st)) = previousTimeUs st.
Proof. unfold baroStage. split_branches; reflexivity. Qed.

Lemma sonarStage_previousTimeUs e baroAlt st :
  previousTimeUs (sonarStage e baroAlt st) = previousTimeUs st.
Proof. unfold sonarStage. split_branches; reflexivity. Qed.

Lemma accStage_previousTimeUs e baroAlt st :
  previousTimeUs (snd (accStage e baroAlt st)) = previousTimeUs st.
Proof. unfold accStage. destruct (sensors_ACC e); reflexivity. Qed.

Lemma baroStage_accSum e st :
  accSum (snd (baroStage e st)) = accSum st.
Proof. unfold baroStage. split_branches; reflexivity. Qed.

Lemma sonarStage_accSum e baroAlt st :
  accSum (sonarStage e baroAlt st) = accSum st.
Proof. unfold sonarStage. split_branches; reflexivity. Qed.

Lemma baroStage_estimate e st :
  let baroCalibrated :=
    sensors_BARO e && isBaroCalibrationComplete (baro st) in
  fst (baroStage e st)
  = (if baroCalibrated then fst (baroCalculateAltitude (baro st)) else 0)
  /\ estimatedAltitude (snd (baroStage e st))
     = if baroCalibrated then fst (baroCalculateAltitude (baro st))
       else estimatedAltitude st.
Proof.
  unfold baroStage.
  destruct (sensors_BARO e); simpl; [|split; reflexivity].
  destruct (isBaroCalibrationComplete (baro st)); simpl;
    [|split; reflexivity].
  destruct (baroCalculateAltitude (baro st)). split; reflexivity.
Qed.

Lemma sonarStage_estimate e baroAlt st :
  estimatedAltitude (sonarStage e baroAlt st)
  = if sensors_SONAR e && sonarInRange e (sonarAltitude e)
    then sonarBlend (sonarAltitude e) baroAlt
           (sonarTransition e (sonarAltitude e))
    else estimatedAltitude st.
Proof.
  unfold sonarStage.
  destruct (sensors_SONAR e); [|reflexivity].
  destruct (sonarInRange e (sonarAltitude e)); reflexivity.
Qed.

Lemma accStage_estimate e baroAlt st :
  estimatedAltitude (snd (accStage e baroAlt st))
  = if sensors_ACC e
    then F32.to_int32 (accAlt (snd (accStage e baroAlt st)))
    else estimatedAltitude st.
Proof. unfold accStage. destruct (sensors_ACC e); reflexivity. Qed.

Lemma accStage_mean e baroAlt st :
  fst (accStage e baroAlt st)
  = if sensors_ACC e then meanAccZ st else F32.zero.
Proof. unfold accStage. destruct (sensors_ACC e); reflexivity. Qed.

(** An accepted tick in one statement: the state [s5] left by the sensor
    blocks, the debug taps and the accumulator reset, what it keeps and
    what it holds, and the two ways the tick ends. *)
Lemma accepted_tick_summary e st t :
  accepted st t -> tap_defined e st ->
  let baroCalibrated :=
    sensors_BARO e && isBaroCalibrationComplete (baro st) in
  let baroAlt :=
    if baroCalibrated then fst (baroCalculateAltitude (baro st)) else 0 in
  exists s5 accZ_tmp,
    sensor_frame st s5
    /\ (previousTimeUs s5 = t /\ accSum s5 = [0; 0; 0]
        /\ accSumCount s5 = 0 /\ accTimeSum s5 = 0)
    /\ accZ_tmp = (if sensors_ACC e then meanAccZ st else F32.zero)
    /\ estimatedAltitude s5
       = (if sensors_ACC e then F32.to_int32 (accAlt s5)
          else if sensors_SONAR e && sonarInRange e (sonarAltitude e)
          then sonarBlend (sonarAltitude e) baroAlt
                 (sonarTransition e (sonarAltitude e))
          else if baroCalibrated then baroAlt
          else estimatedAltitude st)
    /\ ((sensors_BARO e = true
         /\ isBaroCalibrationComplete (baro s5) = false
         /\ calculateEstimatedAltitude e st t = Ok s5)
        \/ (exists s baroVel,
              (sensors_BARO e = false
               \/ isBaroCalibrationComplete (baro s5) = true)
              /\ (s = s5 \/ s = set_lastBaroAlt s5 baroAlt)
              /\ calculateEstimatedAltitude e st t
                 = Ok (velocityStage e s baroVel accZ_tmp))).
Proof.
  intros Ha Ht baroCalibrated baroAlt.
  destruct (accepted_tick e st t Ha Ht) as [d Hd]. cbv zeta in Hd.
  (* the barometer block *)
  destruct (baroStage_estimate e (set_previousTimeUs st t)) as [Hb1 Hb2].
  change (baro (set_previousTimeUs st t)) with (baro st) in Hb1, Hb2.
  change (estimatedAltitude (set_previousTimeUs st t))
    with (estimatedAltitude st) in Hb2.
  fold baroCalibrated in Hb1, Hb2. fold baroAlt in Hb1.
  assert (Hf1 : sensor_frame st (snd (baroStage e (set_previousTimeUs st t)))).
  { eapply sensor_frame_trans; [|apply baroStage_frame].
    unfold sensor_frame, hold_frame. simpl. repeat split. }
  pose proof (baroStage_previousTimeUs e (set_previousTimeUs st t)) as Hp1.
  pose proof (baroStage_accSum e (set_previousTimeUs st t)) as Hs1.
  pose proof (baroStage_accSumCount e (set_previousTimeUs st t)) as Hc1.
  change (previousTimeUs (set_previousTimeUs st t)) with t in Hp1.
  change (accSum (set_previousTimeUs st t)) with (accSum st) in Hs1.
  change (accSumCount (set_previousTimeUs st t)) with (accSumCount st)
    in Hc1.
  destruct (baroStage e (set_previousTimeUs st t)) as [b1 s1].
  simpl fst in *. simpl snd in *. subst b1.
  (* the ranging block *)
  pose proof (sonarStage_frame e baroAlt s1) as Hf2.
  pose proof (sonarStage_previousTimeUs e baroAlt s1) as Hp2.
  pose proof (sonarStage_accSum e baroAlt s1) as Hs2.
  pose proof (sonarStage_accSumCount e baroAlt s1) as Hc2.
  pose proof (sonarStage_estimate e baroAlt s1) as He2.
  set (s2 := sonarStage e baroAlt s1) in *. clearbody s2.
  assert (Hmean : meanAccZ s2 = meanAccZ st).
  { unfold meanAccZ. rewrite Hc2, Hc1, Hs2, Hs1. reflexivity. }
  (* the accelerometer block *)
  pose proof (accStage_frame e baroAlt s2) as Hf3.
  pose proof (accStage_previousTimeUs e baroAlt s2) as Hp3.
  pose proof (accStage_estimate e baroAlt s2) as He3.
  pose proof (accStage_mean e baroAlt s2) as Hm3.
  destruct (accStage e baroAlt s2) as [accZ_tmp s3].
  simpl fst in *. simpl snd in *.
  (* the taps and the reset *)
  set (s5 := imuResetAccelerationSum (set_debug s3 d)) in *.
  assert (Hf5 : sensor_frame s3 s5).
  { unfold s5, sensor_frame, hold_frame. simpl. repeat split. }
  assert (H5 : previousTimeUs s5 = previousTimeUs s3
               /\ accSum s5 = [0; 0; 0] /\ accSumCount s5 = 0
               /\ accTimeSum s5 = 0
               /\ estimatedAltitude s5 = estimatedAltitude s3
               /\ accAlt s5 = accAlt s3) by (repeat split).
  clearbody s5. destruct H5 as (Hp5 & Hs5 & Hc5 & Ht5 & He5 & Ha5).
  exists s5, accZ_tmp.
  split.
  { eapply sensor_frame_trans; [|exact Hf5].
    eapply sensor_frame_trans; [|exact Hf3].
    eapply sensor_frame_trans; [exact Hf1|exact Hf2]. }
  split; [rewrite Hp5, Hp3, Hp2, Hp1; auto|].
  split; [rewrite Hm3, Hmean; reflexivity|].
  split.
  { rewrite He5, He3, Ha5, He2, Hb2.
    subst baroAlt. destruct baroCalibrated; reflexivity. }
  destruct (sensors_BARO e).
  - destruct (isBaroCalibrationComplete (baro s5)) eqn:Hc; simpl in Hd.
    + right. eexists _, _. split; [right; reflexivity|].
      split; [right; reflexivity|exact Hd].
    + left. auto.
  - right. eexists _, _. split; [left; reflexivity|].
    split; [left; reflexivity|exact Hd].
Qed.

(** X13: an accepted tick that does not fault records its time stamp and
    empties the acceleration window (sum, sample count and sample time),
    whichever sensors are present and whether or not the velocity stage
    runs; any later call less than 25000 microseconds after it, in
    particular a second call with the same time stamp, then returns the
    state unchanged. *)
Theorem accepted_tick_bookkeeping e st t :
  accepted st t -> tap_defined e st ->
  exists st',
    calculateEstimatedAltitude e st t = Ok st'
    /\ previousTimeUs st' = t
    /\ accSum st' = [0; 0; 0] /\ accSumCount st' = 0 /\ accTimeSum st' = 0
    /\ (forall e2 t2,
          uint32 (t2 - t) < 25000 ->
          calculateEstimatedAltitude e2 st' t2 = Ok st')
    /\ calculateEstimatedAltitude e st' t = Ok st'.
Proof.
  intros Ha Ht.
  destruct (accepted_tick_summary e st t Ha Ht)
    as (s5 & accZ_tmp & _ & H5 & _ & _ & Hcases).
  assert (Hbook : exists st',
             calculateEstimatedAltitude e st t = Ok st'
             /\ previousTimeUs st' = t /\ accSum st' = [0; 0; 0]
             /\ accSumCount st' = 0 /\ accTimeSum st' = 0).
  { destruct Hcases as [(_ & _ & Hrun)|(s & bv & _ & Hs & Hrun)].
    - exists s5. split; [exact Hrun|exact H5].
    - eexists. split; [exact Hrun|].
      destruct (velocityStage_bookkeeping e s bv accZ_tmp)
        as (-> & -> & -> & ->).
      destruct Hs as [-> | ->]; exact H5. }
  destruct Hbook as (st' & Hrun & Hp & Hs & Hc & Hts).
  exists st'.
  assert (Hlater : forall e2 t2,
             uint32 (t2 - t) < 25000 ->
             calculateEstimatedAltitude e2 st' t2 = Ok st').
  { intros e2 t2 Hlt. unfold calculateEstimatedAltitude. rewrite Hp.
    change BARO_UPDATE_FREQUENCY_40HZ with 25000.
    apply Z.ltb_lt in Hlt. rewrite Hlt. reflexivity. }
  repeat (split; [assumption|]).
  apply Hlater. rewrite Z.sub_diag. reflexivity.
Qed.

(** X14: the altitude published by an accepted tick that does not fault
    (the altitude debug mode is off or the acceleration window is not
    empty) comes from exactly one source, by priority: the integrated altitude accumulator when the
    accelerometer is present; otherwise the ranging blend when the ranging
    sensor is present with a positive reading inside its band; otherwise
    the barometric altitude when the barometer is present and calibrated;
    otherwise the previous estimate is kept. *)
Theorem altitude_source e st t :
  accepted st t -> tap_defined e st ->
  let baroCalibrated :=
    sensors_BARO e && isBaroCalibrationComplete (baro st) in
  let baroAlt :=
    if baroCalibrated then fst (baroCalculateAltitude (baro st)) else 0 in
  exists st',
    calculateEstimatedAltitude e st t = Ok st'
    /\ estimatedAltitude st'
       = if sensors_ACC e then F32.to_int32 (accAlt st')
         else if sensors_SONAR e && sonarInRange e (sonarAltitude e)
         then sonarBlend (sonarAltitude e) baroAlt
                (sonarTransition e (sonarAltitude e))
         else if baroCalibrated then baroAlt
         else estimatedAltitude st.
Proof.
  intros Ha Ht baroCalibrated baroAlt.
  destruct (accepted_tick_summary e st t Ha Ht)
    as (s5 & accZ_tmp & _ & _ & _ & He & Hcases).
  fold baroCalibrated baroAlt in He, Hcases.
  destruct Hcases as [(_ & _ & Hrun)|(s & bv & _ & Hs & Hrun)].
  - exists s5. split; [exact Hrun|exact He].
  - eexists. split; [exact Hrun|].
    rewrite velocityStage_estimatedAltitude, velocityStage_accAlt.
    destruct Hs as [-> | ->]; exact He.
Qed.

(** X15: on an accepted tick that does not fault (the altitude debug
    mode is off or the acceleration window is not empty) the velocity
    stage is skipped exactly when the barometer is present and its calibration is incomplete after the
    sensor blocks; the vario, the adjustment, the integrator and the
    previous acceleration then keep their values.  Whenever the stage
    runs, the published vario is the velocity accumulator rounded to the
    nearest integer with a deadband of 5, and the acceleration kept for
    the next tick is the mean of this tick's window (0 without
    accelerometer). *)
Theorem velocity_stage_gate e st t :
  accepted st t -> tap_defined e st ->
  exists st',
    calculateEstimatedAltitude e st t = Ok st'
    /\ (sensors_BARO e = true ->
        isBaroCalibrationComplete (baro st') = false ->
        estimatedVario st' = estimatedVario st
        /\ altHoldThrottleAdjustment st' = altHoldThrottleAdjustment st
        /\ errorVelocityI st' = errorVelocityI st
        /\ accZ_old st' = accZ_old st)
    /\ (sensors_BARO e = false
        \/ isBaroCalibrationComplete (baro st') = true ->
        estimatedVario st' = applyDeadband (F32.lrintf (vel st')) 5
        /\ accZ_old st'
           = if sensors_ACC e then meanAccZ st else F32.zero).
Proof.
  intros Ha Ht.
  destruct (accepted_tick_summary e st t Ha Ht)
    as (s5 & accZ_tmp & Hf & _ & Hz & _ & Hcases).
  destruct Hcases as [(Hb & Hc & Hrun)|(s & bv & Hcond & Hs & Hrun)].
  - exists s5. split; [exact Hrun|]. split.
    + intros _ _. destruct Hf as (_ & HI & Hadj & Hv & Hz'). auto.
    + intros [Hb'|Hc']; congruence.
  - eexists. split; [exact Hrun|].
    assert (Hbaro : baro s = baro s5)
      by (destruct Hs as [-> | ->]; reflexivity).
    split.
    + intros Hb Hc. rewrite velocityStage_baro, Hbaro in Hc.
      destruct Hcond; congruence.
    + intros _.
      destruct (velocityStage_outputs e s bv accZ_tmp) as [Hv Hz'].
      split; [exact Hv|]. rewrite Hz'. exact Hz.
Qed.

(** ** Numeric ranges *)

(** X17: the barometric velocity that enters the velocity filter lies
    within -1490 .. 1490 cm/s, whatever the two altitude readings and the
    elapsed time are (a zero elapsed time and non-finite quotients
    included). *)
Theorem baroVelocity_range st baroAlt dTime :
  -1490 <= baroVelocity st baroAlt dTime <= 1490.
Proof.
  unfold baroVelocity.
  match goal with
  | |- _ <= applyDeadband (constrain ?x _ _) _ <= _ =>
      pose proof (constrain_bounds x (-1500) 1500 ltac:(lia)) as Hc;
      set (c := constrain x (-1500) 1500) in *
  end.
  unfold applyDeadband. rewrite ABS_abs.
  destruct (Z.ltb_spec (Z.abs c) 10); [lia|].
  destruct (Z.ltb_spec 0 c).
  - rewrite int32_small by fits. lia.
  - destruct (Z.ltb_spec c 0); [|lia].
    rewrite int32_small by fits. lia.
Qed.

(** X18: outside velocity-control mode the target velocity is within
    -300 .. 300 cm/s, is 0 whenever the estimate is less than 10 cm from
    the target, and never points away from the target: it is not negative
    when the target is at or above the estimate and not positive when it
    is at or below (gain of type [uint8_t], representable difference). *)
Theorem outer_stage_target e st :
  velocityControl st = 0 ->
  -300 <= altitudeSetVel e st <= 300
  /\ (in_int32 (AltHold st - estimatedAltitude st) ->
      0 <= P8_PIDALT (pidProfile e) <= 255 ->
      (Z.abs (AltHold st - estimatedAltitude st) < 10 ->
       altitudeSetVel e st = 0)
      /\ (estimatedAltitude st <= AltHold st -> 0 <= altitudeSetVel e st)
      /\ (AltHold st <= estimatedAltitude st -> altitudeSetVel e st <= 0)).
Proof.
  intros Hvc. unfold altitudeSetVel. rewrite Hvc. simpl.
  split; [apply constrain_bounds; lia|].
  intros Hd HP. rewrite (int32_small _ Hd).
  rewrite (constrain_spec_clamp _ (-500) 500) by lia.
  set (err := spec_clamp (AltHold st - estimatedAltitude st) (-500) 500).
  assert (Herr : -500 <= err <= 500) by (unfold err, spec_clamp; lia).
  rewrite applyDeadband_spec_deadband by fits.
  set (db := spec_deadband err 10).
  assert (Hdb : -500 <= db <= 500).
  { unfold db, spec_deadband. destruct (Z.ltb_spec (Z.abs err) 10); lia. }
  rewrite int32_small by (unfold in_int32, INT32_MIN, INT32_MAX; nia).
  rewrite (constrain_spec_clamp _ (-300) 300) by lia.
  split; [|split].
  - intros Hnear.
    assert (Hz : db = 0).
    { unfold db, spec_deadband.
      destruct (Z.ltb_spec (Z.abs err) 10); [reflexivity|].
      unfold err, spec_clamp in *. lia. }
    rewrite Hz, Z.mul_0_r. reflexivity.
  - intros Hup.
    assert (Hnn : 0 <= db).
    { unfold db, spec_deadband.
      destruct (Z.ltb_spec (Z.abs err) 10); [lia|].
      assert (0 <= err) by (unfold err, spec_clamp; lia).
      rewrite Z.sgn_pos by lia. lia. }
    assert (0 <= Z.quot (P8_PIDALT (pidProfile e) * db) 128)
      by (apply Z.quot_pos; nia).
    unfold spec_clamp. lia.
  - intros Hdown.
    assert (Hnp : db <= 0).
    { unfold db, spec_deadband.
      destruct (Z.ltb_spec (Z.abs err) 10); [lia|].
      assert (err <= 0) by (unfold err, spec_clamp; lia).
      rewrite Z.sgn_neg by lia. lia. }
    assert (Hq : Z.quot (P8_PIDALT (pidProfile e) * db) 128
                 <= Z.quot 0 128) by (apply Z.quot_le_mono; nia).
    change (Z.quot 0 128) with 0 in Hq.
    unfold spec_clamp. lia.
Qed.

Lemma dTerm_checked : forall_bits 8 dTermVanishes 0 = true.
Proof. vm_compute. reflexivity. Qed.

Lemma velocityD_at_rest e :
  0 <= D8_PIDVEL (pidProfile e) <= 255 ->
  velocityD e F32.zero F32.zero = 0.
Proof.
  intros HD.
  pose proof (forall_bits_spec _ _ _ dTerm_checked
                (D8_PIDVEL (pidProfile e))) as Hc.
  change (2 ^ Z.of_nat 8) with 256 in Hc. specialize (Hc ltac:(lia)).
  unfold dTermVanishes in Hc. apply Z.eqb_eq in Hc.
  unfold velocityD. rewrite Hc. reflexivity.
Qed.

(** X19: the hold has a rest point.  Outside velocity-control mode, with
    the thrust facing downwards, the estimate less than 10 cm from the
    target (the difference representable), a derivative gain of type
    [uint8_t], a vertical velocity of 0, an empty integrator and no
    vertical acceleration in this tick and the last, the controller
    returns an adjustment of 0 and leaves the state, the integrator
    included, as it was. *)
Theorem controller_rest_point e st :
  isThrustFacingDownwards (attitude e) = true ->
  velocityControl st = 0 ->
  in_int32 (AltHold st - estimatedAltitude st) ->
  Z.abs (AltHold st - estimatedAltitude st) < 10 ->
  errorVelocityI st = 0 ->
  0 <= D8_PIDVEL (pidProfile e) <= 255 ->
  calculateAltHoldThrottleAdjustment e st 0 F32.zero F32.zero = (0, st).
Proof.
  intros Ht Hvc Hd Hnear HI HD.
  rewrite adjustment_sum by exact Ht. cbv zeta.
  assert (Hs : altitudeSetVel e st = 0).
  { unfold altitudeSetVel. rewrite Hvc. simpl.
    rewrite (int32_small _ Hd).
    rewrite (constrain_inside (AltHold st - estimatedAltitude st)) by lia.
    unfold applyDeadband. rewrite ABS_abs.
    apply Z.ltb_lt in Hnear. rewrite Hnear, Z.mul_0_r. reflexivity. }
  rewrite Hs. change (int32 (0 - 0)) with 0.
  unfold velocityP, velocityI. rewrite !Z.mul_0_r, HI.
  rewrite velocityD_at_rest by exact HD.
  change (constrain (Z.quot (int32 0) 32) (-300) 300) with 0.
  change (constrain (int32 (0 + int32 0)) (- (8192 * 200)) (8192 * 200))
    with 0.
  simpl. f_equal. destruct st; simpl in *. subst. reflexivity.
Qed.

(** X20: with the thrust facing downwards the integrator accumulates
    I_vel times the velocity error and saturates at the nearer limit: its
    new value is the old one plus I_vel * (target velocity - velocity),
    clamped to -1638400 .. 1638400, with no wrap-around, for a gain of
    type [uint8_t], an integrator within its range and a velocity error of
    at most 8000000 cm/s in magnitude. *)
Theorem integrator_update e st vel_tmp accZ_tmp accZ_old :
  isThrustFacingDownwards (attitude e) = true ->
  0 <= I8_PIDVEL (pidProfile e) <= 255 ->
  integrator_bounded st ->
  Z.abs (altitudeSetVel e st - vel_tmp) <= 8000000 ->
  errorVelocityI
    (snd (calculateAltHoldThrottleAdjustment e st vel_tmp accZ_tmp accZ_old))
  = spec_clamp
      (errorVelocityI st
       + I8_PIDVEL (pidProfile e) * (altitudeSetVel e st - vel_tmp))
      (-1638400) 1638400.
Proof.
  intros Ht HI Hb Herr. unfold integrator_bounded in Hb.
  rewrite adjustment_sum by exact Ht. cbv zeta. simpl.
  unfold velocityI.
  rewrite (int32_small (altitudeSetVel e st - vel_tmp)) by fits.
  rewrite (int32_small (I8_PIDVEL (pidProfile e) * _))
    by (unfold in_int32, INT32_MIN, INT32_MAX; nia).
  rewrite int32_small by (unfold in_int32, INT32_MIN, INT32_MAX; nia).
  apply constrain_spec_clamp. lia.
Qed.

(** X21: the published altitude and vario change only in the estimator.
    A run of any length that consists of calls of the output stage and of
    the two hold state machines never faults and leaves what
    [getEstimatedAltitude] and [getEstimatedVario] return unchanged. *)
Theorem estimate_changes_only_in_estimator calls : forall st,
  Forall (fun c => is_estimator_call (snd c) = false) calls ->
  exists st',
    run calls st = Ok st'
    /\ getEstimatedAltitude st' = getEstimatedAltitude st
    /\ getEstimatedVario st' = getEstimatedVario st.
Proof.
  unfold getEstimatedAltitude, getEstimatedVario.
  induction calls as [|[e o] rest IH]; intros st Hall.
  - exists st. repeat split.
  - inversion Hall as [|? ? Ho Hrest]; subst. simpl in Ho.
    assert (Hstep : exists s,
               exec e o st = Ok s
               /\ estimatedAltitude s = estimatedAltitude st
               /\ estimatedVario s = estimatedVario st).
    { destruct o; try discriminate; simpl; eexists;
        (split; [reflexivity|]).
      - unfold applyAltHold, applyFixedWingAltHold, applyMultirotorAltHold.
        split_branches; simpl; split; reflexivity.
      - unfold updateAltHoldState. split_branches; simpl; split; reflexivity.
      - unfold updateSonarAltHoldState.
        split_branches; simpl; split; reflexivity. }
    destruct Hstep as (s & Hs & Ha & Hv).
    destruct (IH s Hrest) as (st' & Hrun & Ha' & Hv').
    exists st'. cbn [run]. rewrite Hs. simpl.
    split; [exact Hrun|]. split; congruence.
Qed.

End MoreProperties.

(** ** Concrete runs of the further properties *)

(** Both holds engaged (flags 8 and 512), barometer request dropped. *)
Lemma hold_disengage_witness :
  let e := simSticks 1500 false false true 1 in
  let st := set_flightModeFlags (set_errorVelocityI (simStart 0 0) 77) 520 in
  FLIGHT_MODE (updateAltHoldState e st) (BARO_MODE e) = false
  /\ FLIGHT_MODE (updateAltHoldState e st) (SONAR_MODE e) = true
  /\ errorVelocityI (updateAltHoldState e st) = 77.
Proof.
  intros e st.
  destruct (hold_disengage e st) as [Hbaro _].
  destruct Hbaro as (Hclear & Hother & Hcore & _); [reflexivity|].
  split; [exact Hclear|]. split.
  - rewrite Hother by reflexivity. reflexivity.
  - destruct Hcore as (_ & _ & HI & _). rewrite HI. reflexivity.
Defined.


(** Barometer hold engaged with target 100 cm; the ranging hold is
    requested when the estimate is 250 cm. *)
Lemma second_engagement_relatches_witness :
  let e := simSticks 1500 false true true 1 in
  let st :=
    set_flightModeFlags
      (set_errorVelocityI
         (set_AltHold (set_estimatedAltitude (simStart 0 0) 250) 100) 999)
      8 in
  AltHold (updateSonarAltHoldState e st) = 250
  /\ errorVelocityI (updateSonarAltHoldState e st) = 0
  /\ FLIGHT_MODE (updateSonarAltHoldState e st) (BARO_MODE e) = true.
Proof.
  intros e st.
  destruct (second_engagement_relatches e st) as [Hsonar _];
    [reflexivity|].
  destruct Hsonar as [(Ha & _ & HI & _) Hb]; try reflexivity.
  split; [rewrite Ha; reflexivity|]. split; [exact HI|exact Hb].
Defined.

Lemma engagement_is_bumpless_witness :
  let e := simSticks 1500 false true false 0 in
  let st := set_altHoldThrottleAdjustment (simStart 0 0) (-120) in
  rcCommand (applyAltHold e (updateAltHoldState e st)) THROTTLE = 1500.
Proof.
  intros e st.
  apply (engagement_is_bumpless e st); try reflexivity;
    vm_compute; try split; discriminate.
Defined.

(** Hold engaged at throttle 1400, stick at 1500, deadband 40. *)
Lemma slow_mode_excursion_witness :
  let e := simSticks 1500 false true false 0 in
  let st := simHeld (fun _ => 0) in
  velocityControl (applyAltHold e st) = 1
  /\ setVelocity (applyAltHold e st) = 50
  /\ altitudeSetVel e (applyAltHold e st) = 50.
Proof.
  intros e st.
  destruct (slow_mode_excursion e st) as (Hv & Hs & Hset & _);
    try reflexivity; try (vm_compute; split; discriminate).
  split; [exact Hv|]. split; [rewrite Hs; reflexivity|].
  rewrite Hset, Hs. reflexivity.
Defined.

Lemma fast_mode_excursion_witness :
  let e := simSticks 1500 false true false 1 in
  let st := set_errorVelocityI (simHeld (fun _ => 0)) 999 in
  errorVelocityI (applyAltHold e st) = 0
  /\ isAltHoldChanged (applyAltHold e st) = 1
  /\ AltHold (applyAltHold e st) = AltHold st.
Proof.
  intros e st.
  destruct (fast_mode_excursion e st) as (HI & Hc & Ha & _);
    try reflexivity; try (vm_compute; discriminate).
  split; [exact HI|]. split; [exact Hc|exact Ha].
Defined.

(** Slow mode, an excursion marked, the stick back within the deadband
    with the estimate at 275 cm. *)
Lemma stick_return_witness :
  let e := simSticks 1410 false true false 0 in
  let st :=
    set_isAltHoldChanged
      (set_velocityControl
         (set_estimatedAltitude (simHeld (fun _ => 0)) 275) 1) 1 in
  AltHold (applyAltHold e st) = 275
  /\ velocityControl (applyAltHold e st) = 0
  /\ isAltHoldChanged (applyAltHold e st) = 0.
Proof.
  intros e st.
  destruct (stick_return e st) as (Hmarked & _ & Hc & _);
    try reflexivity; try (vm_compute; discriminate).
  destruct Hmarked as (Ha & Hslow & _); [vm_compute; discriminate|].
  split; [rewrite Ha; reflexivity|].
  split; [apply Hslow; reflexivity|exact Hc].
Defined.

Lemma excursion_then_return_witness :
  let e_out := simSticks 1500 false true false 1 in
  let e_back := simSticks 1400 false true false 1 in
  let st := set_estimatedAltitude (simHeld (fun _ => 0)) 275 in
  AltHold (applyAltHold e_back (applyAltHold e_out st)) = 275
  /\ isAltHoldChanged (applyAltHold e_back (applyAltHold e_out st)) = 0.
Proof.
  intros e_out e_back st.
  destruct (excursion_then_return e_out e_back st) as (Ha & Hc & _);
    try reflexivity; try (vm_compute; discriminate).
  split; [rewrite Ha; reflexivity|exact Hc].
Defined.

Lemma applyAltHold_frame_witness :
  let e := simSticks 1500 true true false 1 in
  let st := set_estimatedAltitude (simHeld (fun _ => 7)) 275 in
  estimatedAltitude (applyAltHold e st) = 275
  /\ rcCommand (applyAltHold e st) THROTTLE = 7
  /\ AltHold (applyAltHold e st) = AltHold st.
Proof.
  intros e st.
  destruct (applyAltHold_frame e st) as ((He & _) & _ & _ & _ & _ & Hfw).
  destruct Hfw as [Hcore Hother]; [reflexivity|].
  split; [rewrite He; reflexivity|].
  split; [rewrite Hother by discriminate; reflexivity|].
  destruct Hcore as (_ & _ & _ & _ & Ha & _). exact Ha.
Defined.

Lemma fixed_wing_pitch_witness :
  let e := simSticks 1500 true true false 1 in
  let st := simHeld (fun c => match c with PITCH => -100 | _ => 0 end) in
  rcCommand (applyAltHold e st) PITCH = -75.
Proof.
  intros e st.
  destruct (fixed_wing_pitch e st) as [Heq _];
    [reflexivity
    | vm_compute; split; discriminate | vm_compute; split; discriminate
    | vm_compute; split; discriminate | vm_compute; split; discriminate
    | rewrite Heq; reflexivity].
Defined.

Lemma estimator_frame_witness :
  let e := simSensors true false false 0 100 300 false in
  let st := set_AltHold (simStart 0 1000) 500 in
  exists st',
    calculateEstimatedAltitude e st 25000 = Ok st'
    /\ estimatedAltitude st' = 1000
    /\ AltHold st' = 500.
Proof.
  intros e st. eexists. split; [vm_compute; reflexivity|].
  split; [reflexivity|].
  eapply (estimator_frame e st 25000). vm_compute. reflexivity.
Defined.

Lemma reachable_adjustment_and_flags_witness :
  exists st',
    exec (simSensors true false false 0 100 300 false)
      (OpCalculateEstimatedAltitude 25000) (simStart 0 1000) = Ok st'
    /\ altHoldThrottleAdjustment st' = -301
    /\ adjustment_bounded st' /\ flags_boolean st'.
Proof.
  eexists. split; [vm_compute; reflexivity|].
  split; [reflexivity|].
  apply reachable_adjustment_and_flags.
  apply (reachable_exec (simSensors true false false 0 100 300 false)
           (OpCalculateEstimatedAltitude 25000) (simStart 0 1000)).
  - apply reachable_initial. repeat split.
  - vm_compute. reflexivity.
Defined.

(** Ten samples accumulated over 25 ms; the next call comes 5 ms after
    the accepted one. *)
Lemma accepted_tick_bookkeeping_witness :
  let e := simSensors false false true 0 100 300 true in
  let st :=
    set_accTimeSum
      (set_accSumCount (set_accSum (simStart 0 0) [0; 0; 981]) 10) 25000 in
  exists st',
    calculateEstimatedAltitude e st 25000 = Ok st'
    /\ previousTimeUs st' = 25000
    /\ accSumCount st' = 0
    /\ calculateEstimatedAltitude e st' 30000 = Ok st'.
Proof.
  intros e st.
  destruct (accepted_tick_bookkeeping e st 25000)
    as (st' & Hrun & Hp & _ & Hc & _ & Hlater & _).
  - vm_compute. discriminate.
  - right. vm_compute. discriminate.
  - exists st'. split; [exact Hrun|]. split; [exact Hp|].
    split; [exact Hc|]. apply Hlater. vm_compute. reflexivity.
Defined.

Lemma altitude_source_witness :
  let e := simSensors true true false 150 100 300 false in
  let st := simStart 0 1000 in
  exists st',
    calculateEstimatedAltitude e st 25000 = Ok st'
    /\ estimatedAltitude st' = 362.
Proof.
  intros e st.
  destruct (altitude_source e st 25000) as (st' & Hrun & He).
  - vm_compute. discriminate.
  - left. reflexivity.
  - exists st'. split; [exact Hrun|]. rewrite He. vm_compute. reflexivity.
Defined.

(** The barometer needs two more calibration cycles: the velocity stage
    is skipped and the vario keeps its value. *)
Lemma velocity_stage_gate_witness :
  let e := simSensors true false false 0 100 300 false in
  let st := set_estimatedVario (simStart 2 0) 50 in
  exists st',
    calculateEstimatedAltitude e st 25000 = Ok st'
    /\ isBaroCalibrationComplete (baro st') = false
    /\ estimatedVario st' = 50.
Proof.
  intros e st.
  destruct (velocity_stage_gate e st 25000) as (st' & Hrun & Hskip & _).
  - vm_compute. discriminate.
  - left. reflexivity.
  - assert (Hc : isBaroCalibrationComplete (baro st') = false).
    { pose proof Hrun as Hval. vm_compute in Hval.
      injection Hval as <-. reflexivity. }
    exists st'. split; [exact Hrun|]. split; [exact Hc|].
    destruct (Hskip eq_refl Hc) as (Hv & _). rewrite Hv. reflexivity.
Defined.

(** Target 1000 cm, estimate 995 cm. *)
Lemma outer_stage_target_witness :
  let e := simSticks 1500 false true false 0 in
  let st := set_estimatedAltitude (set_AltHold (simStart 0 0) 1000) 995 in
  -300 <= altitudeSetVel e st <= 300 /\ altitudeSetVel e st = 0.
Proof.
  intros e st.
  destruct (outer_stage_target e st) as [Hb Hrest]; [reflexivity|].
  split; [exact Hb|].
  destruct Hrest as (Hnear & _).
  - vm_compute. split; discriminate.
  - vm_compute. split; discriminate.
  - apply Hnear. vm_compute. reflexivity.
Defined.

Lemma controller_rest_point_witness :
  let e := simSticks 1500 false true false 0 in
  let st := set_estimatedAltitude (set_AltHold (simStart 0 0) 1000) 995 in
  calculateAltHoldThrottleAdjustment e st 0 F32.zero F32.zero = (0, st).
Proof.
  intros e st.
  apply (controller_rest_point e st); try reflexivity;
    vm_compute; try split; discriminate.
Defined.

(** Target 1000 cm, estimate 400 cm, at rest: the target velocity is 191
    and the integral gain 45. *)
Lemma integrator_update_witness :
  let e := simSticks 1500 false true false 0 in
  let st := set_estimatedAltitude (set_AltHold (simStart 0 0) 1000) 400 in
  errorVelocityI
    (snd (calculateAltHoldThrottleAdjustment e st 0 F32.zero F32.zero))
  = 8595.
Proof.
  intros e st.
  rewrite (integrator_update e st 0 F32.zero F32.zero);
    try reflexivity; vm_compute; try split; discriminate.
Defined.

Lemma estimate_changes_only_in_estimator_witness :
  let e := simSticks 1500 false true true 1 in
  let st := set_estimatedAltitude (simStart 0 0) 321 in
  exists st',
    run [(e, OpUpdateAltHoldState); (e, OpApplyAltHold);
         (e, OpUpdateSonarAltHoldState)] st = Ok st'
    /\ getEstimatedAltitude st' = 321.
Proof.
  intros e st.
  destruct (estimate_changes_only_in_estimator
              [(e, OpUpdateAltHoldState); (e, OpApplyAltHold);
               (e, OpUpdateSonarAltHoldState)] st)
    as (st' & Hrun & Ha & _).
  - repeat constructor.
  - exists st'. split; [exact Hrun|]. rewrite Ha. reflexivity.
Defined.
